(** * Sports-fashion analytics: the trends collector's synthetic generator
      and the processing pipeline, embedded in Rocq.

    The development follows the two scripts of the repository:

    - [collect_trends.py]: [generate_sample_data], the closed-form curves
      over the weekly date grid;
    - [process_data.py]: [DataProcessor.load_tenniscore_sales] (melt, rename,
      dropna), [load_market_data] (outer merge on [year]),
      [create_summary_stats] and [process_all].

    Python numbers are kept as the interpreter has them: an [int] is a [Z],
    a [float] is an IEEE-754 binary64 value, computed with the Standard
    Library's executable specification of binary floating point. *)

From Stdlib Require Import ZArith QArith List String Bool Lia.
From Stdlib Require Import Permutation Sorted.
From Stdlib Require Import Floats.SpecFloat.
Import ListNotations.

Local Open Scope string_scope.
Local Open Scope list_scope.
Local Open Scope Z_scope.

(* ================================================================= *)
(** ** Binary64 floats *)

Module Float64.

Definition prec : Z := 53.
Definition emax : Z := 1024.

Definition float64 : Type := spec_float.

Definition add : float64 -> float64 -> float64 := SFadd prec emax.
Definition sub : float64 -> float64 -> float64 := SFsub prec emax.
Definition mul : float64 -> float64 -> float64 := SFmul prec emax.
Definition div : float64 -> float64 -> float64 := SFdiv prec emax.
Definition ltb : float64 -> float64 -> bool := SFltb.

(** [float(z)]: the integer rounded to the nearest binary64 value. *)
Definition of_Z (z : Z) : float64 := binary_normalize prec emax z 0 false.

Definition nan : float64 := S754_nan.

Definition is_nan (x : float64) : bool :=
  match x with S754_nan => true | _ => false end.

(** Truncation toward zero, as [int(x)] does on a finite float; [None]
    stands for the [ValueError] / [OverflowError] that Python raises on a
    NaN or an infinity.  A finite value is [(-1)^s * m * 2^e]; shifting
    the mantissa by [e] (to the right when [e] is negative) drops the
    fractional bits of the magnitude. *)
Definition trunc (x : float64) : option Z :=
  match x with
  | S754_zero _ => Some 0
  | S754_finite s m e => Some (cond_Zopp s (Z.shiftl (Zpos m) e))
  | S754_infinity _ | S754_nan => None
  end.

(** The rational number a finite float stands for. *)
Definition to_Q (x : float64) : Q :=
  match x with
  | S754_finite s m (Zneg p) => Qmake (cond_Zopp s (Zpos m)) (Pos.pow 2 p)
  | S754_finite s m e => inject_Z (cond_Zopp s (Zpos m * 2 ^ e))
  | _ => inject_Z 0
  end.

(** [z] is [q] with its fractional part dropped. *)
Definition truncates (q : Q) (z : Z) : Prop :=
  ((0 <= q)%Q -> (inject_Z z <= q)%Q /\ (q < inject_Z (z + 1))%Q) /\
  ((q <= 0)%Q -> (inject_Z (z - 1) < q)%Q /\ (q <= inject_Z z)%Q).

(** The literals [0.8] and [0.7] of the source: the binary64 values
    nearest to the decimal fractions. *)
Definition lit_0_8 : float64 := S754_finite false 7205759403792794 (-53).
Definition lit_0_7 : float64 := S754_finite false 6305039478318694 (-53).

End Float64.

Import Float64.

(* ================================================================= *)
(** ** Python numbers *)

(** The generator mixes [int] and [float] operands; the result type of an
    operation is the interpreter's: [int] only when both operands are. *)
Inductive pynum : Type :=
| PyInt (z : Z)
| PyFloat (x : float64).

Module Py.

Definition to_float (a : pynum) : float64 :=
  match a with PyInt z => of_Z z | PyFloat x => x end.

Definition arith (fz : Z -> Z -> Z) (ff : float64 -> float64 -> float64)
           (a b : pynum) : pynum :=
  match a, b with
  | PyInt x, PyInt y => PyInt (fz x y)
  | _, _ => PyFloat (ff (to_float a) (to_float b))
  end.

Definition add := arith Z.add Float64.add.
Definition sub := arith Z.sub Float64.sub.
Definition mul := arith Z.mul Float64.mul.

(** [a / b], true division: always a float.  Every divisor of the
    generator is a non-zero literal. *)
Definition truediv (a b : pynum) : pynum :=
  PyFloat (Float64.div (to_float a) (to_float b)).

(** [a ** 2]; the square of a float is taken as the rounded product. *)
Definition sq (a : pynum) : pynum := mul a a.

(** [a > b]. *)
Definition gtb (a b : pynum) : bool :=
  match a, b with
  | PyInt x, PyInt y => y <? x
  | _, _ => Float64.ltb (to_float b) (to_float a)
  end.

(** [max(a, b)]: the builtin keeps its first argument unless a later
    one compares greater. *)
Definition max (a b : pynum) : pynum := if gtb b a then b else a.

(** [int(a)]. *)
Definition int (a : pynum) : option Z :=
  match a with PyInt z => Some z | PyFloat x => Float64.trunc x end.

(** The number a Python value stands for. *)
Definition value (a : pynum) : Q :=
  match a with PyInt z => inject_Z z | PyFloat x => Float64.to_Q x end.

End Py.

(** A small error monad on [option]. *)
Definition obind {A B : Type} (m : option A) (k : A -> option B) : option B :=
  match m with Some a => k a | None => None end.

Notation "x <- m ;; k" := (obind m (fun x => k))
  (at level 61, m at next level, right associativity).

Fixpoint mapM {A B : Type} (f : A -> option B) (l : list A) : option (list B) :=
  match l with
  | [] => Some []
  | a :: l' => b <- f a ;; bs <- mapM f l' ;; Some (b :: bs)
  end.

(* ================================================================= *)
(** ** Dates *)

(** A timestamp at day resolution is the number of days since
    1970-01-01 (every date of the generator is a midnight). *)
Module Date.

Definition date : Type := Z.

(** Days since the epoch of a proleptic Gregorian civil date. *)
Definition of_civil (y m d : Z) : date :=
  let y' := if m <=? 2 then y - 1 else y in
  let era := y' / 400 in
  let yoe := y' - era * 400 in
  let mp := (m + 9) mod 12 in
  let doy := (153 * mp + 2) / 5 + d - 1 in
  let doe := yoe * 365 + yoe / 4 - yoe / 100 + doy in
  era * 146097 + doe - 719468.

(** [Timestamp.weekday()]: Monday is 0 and Sunday is 6. *)
Definition weekday (d : date) : Z := (d + 3) mod 7.

(** [pd.date_range(start, end, freq='W')]: the Sundays from the first
    one on or after [start] up to [end], both ends included. *)
Definition date_range_W (start stop : date) : list date :=
  let first := start + (6 - weekday start) mod 7 in
  if first <=? stop
  then map (fun k => first + 7 * Z.of_nat k)
           (seq 0 (Z.to_nat ((stop - first) / 7 + 1)))
  else [].

End Date.

(* ================================================================= *)
(** ** collect_trends.py: [generate_sample_data] *)

Module Collect.

Import Date.

Record row : Type := mkRow {
  date_ : date;
  tenniscore : Z;
  tennis_skirt : Z;
  soccer_jersey : Z;
  football_kit : Z;
  womens_activewear : Z;
  category : string
}.

Definition grid_start : date := of_civil 2023 1 1.
Definition grid_end : date := of_civil 2026 2 1.
Definition boost_from : date := of_civil 2024 4 1.
Definition boost_to : date := of_civil 2024 8 1.
Definition center : date := of_civil 2024 4 26.
Definition world_cup : date := of_civil 2026 6 11.

Definition dates : list date := date_range_W grid_start grid_end.

Definition base_tenniscore : pynum := PyInt 20.
Definition soccer_base : pynum := PyInt 30.
Definition womens_base : pynum := PyInt 40.

(** [(a - b).days] of two midnights. *)
Definition days (a b : date) : pynum := PyInt (a - b).

Definition tenniscore_boost (d : date) : pynum :=
  if (boost_from <=? d) && (d <=? boost_to)
  then Py.mul (PyInt 60)
         (Py.sub (PyInt 1)
            (Py.sq (Py.truediv (days d center) (PyInt 120))))
  else PyInt 0.

Definition tenniscore_val (d : date) : pynum :=
  Py.max (Py.add base_tenniscore (tenniscore_boost d)) base_tenniscore.

Definition days_to_wc (d : date) : Z := world_cup - d.

Definition soccer_boost (d : date) : pynum :=
  if days_to_wc d <? 365
  then Py.mul (PyInt 50)
         (Py.sub (PyInt 1) (Py.truediv (PyInt (days_to_wc d)) (PyInt 365)))
  else PyInt 0.

Definition soccer_val (d : date) : pynum :=
  Py.add soccer_base (soccer_boost d).

Definition days_from_start (d : date) : pynum := days d grid_start.

Definition womens_val (d : date) : pynum :=
  Py.add womens_base (Py.truediv (days_from_start d) (PyInt 30)).

(** The dictionary appended for one date of the grid. *)
Definition sample_row (d : date) : option row :=
  t <- Py.int (tenniscore_val d) ;;
  ts <- Py.int (Py.mul (tenniscore_val d) (PyFloat lit_0_8)) ;;
  s <- Py.int (soccer_val d) ;;
  fk <- Py.int (Py.mul (soccer_val d) (PyFloat lit_0_7)) ;;
  w <- Py.int (womens_val d) ;;
  Some (mkRow d t ts s fk w "search_trends").

Definition generate_sample_data : option (list row) :=
  mapM sample_row dates.

(** The primary series of a row are at or above their baselines. *)
Definition above_baselines (r : row) : bool :=
  (20 <=? tenniscore r) && (30 <=? soccer_jersey r)
  && (40 <=? womens_activewear r).

End Collect.


(* ================================================================= *)
(** ** Strings *)

Module Str.

Fixpoint replace_from (skip : nat) (pat repl s : string) : string :=
  match s with
  | EmptyString => EmptyString
  | String c s' =>
      match skip with
      | S k => replace_from k pat repl s'
      | O =>
          if prefix pat s
          then append repl (replace_from (String.length pat - 1) pat repl s')
          else String c (replace_from 0 pat repl s')
      end
  end.

(** [s.replace(pat, repl)] for a non-empty [pat]: every occurrence,
    scanning from the left, occurrences not overlapping. *)
Definition replace (pat repl s : string) : string :=
  replace_from 0 pat repl s.

End Str.

(* ================================================================= *)
(** ** process_data.py: [load_tenniscore_sales] *)

(** Errors of the processing script, named after the exceptions raised.
    The specification calls a [KeyError] on a column [MissingColumn] and
    the [IndexError] of [.iloc[0]] on an empty selection [RowNotFound]. *)
Inductive error : Type :=
| FileNotFoundError (path : string)
| KeyError (label : string)
| IndexError.

Inductive result (A : Type) : Type :=
| Ok (a : A)
| Error (e : error).

Arguments Ok {A} a.
Arguments Error {A} e.

Definition rbind {A B : Type} (m : result A) (k : A -> result B) : result B :=
  match m with Ok a => k a | Error e => Error e end.

Notation "x <-- m ;; k" := (rbind m (fun x => k))
  (at level 61, m at next level, right associativity).

Module Sales.

(** A row of [tenniscore_sales.csv] as [read_csv] delivers it.  An empty
    cell of a text column is a missing value ([None]); an empty cell of a
    numeric column is the float NaN. *)
Record raw_row : Type := mkRaw {
  category : option string;
  item : option string;
  yoy_growth_pct : float64;
  gen_z_growth_pct : float64;
  millennial_growth_pct : float64;
  gen_x_growth_pct : float64;
  baby_boomer_growth_pct : float64
}.

(** A row of the melted frame. *)
Record long_row : Type := mkLong {
  l_category : option string;
  l_item : option string;
  l_yoy_growth_pct : float64;
  demographic : string;
  demo_growth_pct : float64
}.

Inductive demo_col : Type := GenZ | Millennial | GenX | BabyBoomer.

Definition col_name (c : demo_col) : string :=
  match c with
  | GenZ => "gen_z_growth_pct"
  | Millennial => "millennial_growth_pct"
  | GenX => "gen_x_growth_pct"
  | BabyBoomer => "baby_boomer_growth_pct"
  end.

Definition col_value (c : demo_col) (r : raw_row) : float64 :=
  match c with
  | GenZ => gen_z_growth_pct r
  | Millennial => millennial_growth_pct r
  | GenX => gen_x_growth_pct r
  | BabyBoomer => baby_boomer_growth_pct r
  end.

Definition demo_cols : list demo_col := [GenZ; Millennial; GenX; BabyBoomer].

(** The melted row of one input row and one value column. *)
Definition melt_cell (c : demo_col) (r : raw_row) : long_row :=
  mkLong (category r) (item r) (yoy_growth_pct r) (col_name c) (col_value c r).

(** [df.melt(id_vars, value_vars, ...)]: the value columns are stacked one
    below the other (the values are read column by column, the identifier
    columns tiled once per value column). *)
Definition melt (value_vars : list demo_col) (df : list raw_row)
  : list long_row :=
  flat_map (fun c => map (melt_cell c) df) value_vars.

(** [melted['demographic'].str.replace('_growth_pct', '')]. *)
Definition clean_names (l : list long_row) : list long_row :=
  map (fun r => mkLong (l_category r) (l_item r) (l_yoy_growth_pct r)
                  (Str.replace "_growth_pct" "" (demographic r))
                  (demo_growth_pct r)) l.

(** A melted row holds a missing value in some column (its [demographic],
    a label, is never missing). *)
Definition has_na (r : long_row) : bool :=
  match l_category r, l_item r with
  | Some _, Some _ => is_nan (l_yoy_growth_pct r) || is_nan (demo_growth_pct r)
  | _, _ => true
  end.

(** [melted.dropna()]. *)
Definition dropna (l : list long_row) : list long_row :=
  filter (fun r => negb (has_na r)) l.

Definition load_tenniscore_sales (df : list raw_row) : list long_row :=
  dropna (clean_names (melt demo_cols df)).

(** *** Vocabulary of the reshaper's properties *)

(** No missing value among the identifier columns of a row. *)
Definition ids_present (r : raw_row) : bool :=
  match category r, item r with
  | Some _, Some _ => negb (is_nan (yoy_growth_pct r))
  | _, _ => false
  end.

(** No missing value among the demographic columns of a row. *)
Definition demos_present (r : raw_row) : bool :=
  forallb (fun c => negb (is_nan (col_value c r))) demo_cols.

Definition complete (r : raw_row) : bool := ids_present r && demos_present r.

(** The melted row's [demo_growth_pct] is missing. *)
Definition demo_missing (l : long_row) : bool := is_nan (demo_growth_pct l).

(** The demographic label of a value column. *)
Definition label (c : demo_col) : string :=
  match c with
  | GenZ => "gen_z"
  | Millennial => "millennial"
  | GenX => "gen_x"
  | BabyBoomer => "baby_boomer"
  end.

(** The output row of one input row and one demographic. *)
Definition long_of (c : demo_col) (r : raw_row) : long_row :=
  mkLong (category r) (item r) (yoy_growth_pct r) (label c) (col_value c r).

(** The rows of one demographic that survive, in input order. *)
Definition block (c : demo_col) (df : list raw_row) : list long_row :=
  filter (fun l => negb (has_na l)) (map (long_of c) df).

(** Position of a demographic in the declaration order. *)
Definition position (c : demo_col) : nat :=
  match c with GenZ => 0 | Millennial => 1 | GenX => 2 | BabyBoomer => 3 end.

(** The order "row-major over (input row, demographic)": the four rows of
    the first input row, then the four of the second, and so on. *)
Definition row_major (df : list raw_row) : list long_row :=
  filter (fun l => negb (has_na l))
    (flat_map (fun r => map (fun c => long_of c r) demo_cols) df).

(** Every cell of a row other than its [gen_x_growth_pct] is present. *)
Definition present_but_gen_x (r : raw_row) : bool :=
  ids_present r
  && negb (is_nan (gen_z_growth_pct r))
  && negb (is_nan (millennial_growth_pct r))
  && negb (is_nan (baby_boomer_growth_pct r)).

(** The identifier triple of a row, the key of the re-pivot's groups. *)
Definition key : Type := (option string * option string * float64)%type.

Definition key_of (l : long_row) : key :=
  (l_category l, l_item l, l_yoy_growth_pct l).

Definition raw_key (r : raw_row) : key :=
  (category r, item r, yoy_growth_pct r).

Definition float64_eq_dec (x y : float64) : {x = y} + {x <> y}.
Proof.
  decide equality; first [apply Bool.bool_dec | apply Z.eq_dec | apply Pos.eq_dec].
Defined.

Definition key_eq_dec (a b : key) : {a = b} + {a <> b}.
Proof.
  repeat decide equality;
    first [apply float64_eq_dec | apply Bool.bool_dec].
Defined.

Definition group (k : key) (t : list long_row) : list long_row :=
  filter (fun l => if key_eq_dec k (key_of l) then true else false) t.

Definition spread (lbl : string) (g : list long_row) : float64 :=
  match find (fun l => String.eqb (demographic l) lbl) g with
  | Some l => demo_growth_pct l
  | None => nan
  end.

(** Modelled from the spec: the re-pivot of the round-trip law, which the
    repository does not implement.  The long rows are grouped by
    (category, item, yoy_growth_pct), and in each group the demographic
    labels are spread back into the four value columns, each holding the
    [demo_growth_pct] found under its label (NaN when the group has no row
    of that label). *)
Definition repivot (t : list long_row) : list raw_row :=
  map (fun k =>
         let g := group k t in
         mkRaw (fst (fst k)) (snd (fst k)) (snd k)
               (spread (label GenZ) g) (spread (label Millennial) g)
               (spread (label GenX) g) (spread (label BabyBoomer) g))
      (nodup key_eq_dec (map key_of t)).

(** *** Sample tables *)

Definition sample_skirt : raw_row :=
  mkRaw (Some "bottoms") (Some "pleated skirt")
        (of_Z 45) (of_Z 60) (of_Z 50) (of_Z 30) (of_Z 10).

Definition sample_polo : raw_row :=
  mkRaw (Some "tops") (Some "polo shirt")
        (of_Z 30) (of_Z 35) (of_Z 40) nan (of_Z 15).

Definition sample_visor : raw_row :=
  mkRaw (Some "accessories") (Some "visor")
        (of_Z 20) (of_Z 25) (of_Z 18) (of_Z 12) (of_Z 5).

(** A second row under the identifiers of [sample_skirt]. *)
Definition sample_skirt_again : raw_row :=
  mkRaw (Some "bottoms") (Some "pleated skirt")
        (of_Z 45) (of_Z 61) (of_Z 51) (of_Z 31) (of_Z 11).

(** A row whose growth figure is missing, its demographic cells all
    present. *)
Definition sample_no_growth : raw_row :=
  mkRaw (Some "shoes") (Some "court sneaker")
        nan (of_Z 22) (of_Z 28) (of_Z 19) (of_Z 7).

End Sales.

(* ================================================================= *)
(** ** process_data.py: [load_market_data] *)

Module Market.

(** A cell of a yearly table. *)
Inductive cell : Type :=
| Null
| Num (x : float64)
| Text (s : string).

(** A yearly table: the labels of the columns other than [year], and the
    rows, each its [year] and the cells of the other columns in the order
    of the labels. *)
Record frame : Type := mkFrame {
  columns : list string;
  rows : list (Z * list cell)
}.

Definition width (f : frame) : nat := List.length (columns f).
Definition years (f : frame) : list Z := map fst (rows f).

(** Every row has one cell per column. *)
Definition well_formed (f : frame) : Prop :=
  Forall (fun r => List.length (snd r) = width f) (rows f).

(** A label that both operands carry takes the operand's suffix. *)
Definition suffixed (sfx : string) (others : list string) (c : string)
  : string :=
  if existsb (String.eqb c) others then append c sfx else c.

Definition merged_columns (l r : frame) : list string :=
  map (suffixed "_x" (columns r)) (columns l)
  ++ map (suffixed "_y" (columns l)) (columns r).

(** The keys of an outer join: the union of both operands' keys, sorted,
    each once. *)
Fixpoint insert_key (k : Z) (ks : list Z) : list Z :=
  match ks with
  | [] => [k]
  | k' :: ks' =>
      if k <? k' then k :: ks
      else if k =? k' then ks
      else k' :: insert_key k ks'
  end.

Definition join_keys (l r : frame) : list Z :=
  fold_right insert_key [] (years l ++ years r).

Definition with_year (k : Z) (f : frame) : list (Z * list cell) :=
  filter (fun row => fst row =? k) (rows f).

Definition nulls (n : nat) : list cell := repeat Null n.

(** The rows of the join for one key: the pairs of matching rows, or the
    rows of the one operand that has the key, the other's columns null. *)
Definition join_key (l r : frame) (k : Z) : list (Z * list cell) :=
  match with_year k l, with_year k r with
  | [], rs => map (fun b => (k, nulls (width l) ++ snd b)) rs
  | ls, [] => map (fun a => (k, snd a ++ nulls (width r))) ls
  | ls, rs => flat_map (fun a => map (fun b => (k, snd a ++ snd b)) rs) ls
  end.

(** [pd.merge(l, r, on='year', how='outer')], with the default suffixes.
    (A suffixed label that meets another label of the result is outside
    this model.) *)
Definition merge_outer (l r : frame) : frame :=
  mkFrame (merged_columns l r) (flat_map (join_key l r) (join_keys l r)).

Definition load_market_data (sportswear jersey : frame) : frame :=
  merge_outer sportswear jersey.

(** [row[label]] on a row of the frame. *)
Fixpoint getitem (label : string) (cols : list string) (cells : list cell)
  : result cell :=
  match cols, cells with
  | c :: cols', v :: cells' =>
      if String.eqb label c then Ok v else getitem label cols' cells'
  | _, _ => Error (KeyError label)
  end.

(** *** Vocabulary of the merger's properties *)

(** The cells of the first row of a table under a year, if any. *)
Definition cells_of (k : Z) (f : frame) : option (list cell) :=
  match with_year k f with
  | [] => None
  | row :: _ => Some (snd row)
  end.

(** What a table contributes to the joined row of a year: its cells under
    that year, or nulls for each of its columns. *)
Definition side (f : frame) (k : Z) : list cell :=
  match cells_of k f with
  | Some a => a
  | None => nulls (width f)
  end.

(** The two tables share no label. *)
Definition disjoint_labels (l r : frame) : Prop :=
  forall c, In c (columns l) -> ~ In c (columns r).

(** *** Sample tables *)

Definition sample_sportswear : frame :=
  mkFrame ["market_value_billion_usd"; "segment"]
          [(2023, [Num (of_Z 200); Text "historical"]);
           (2024, [Num (of_Z 214); Text "historical"]);
           (2033, [Num (of_Z 390); Text "forecast"])].

Definition sample_jersey : frame :=
  mkFrame ["sports_jersey_market_billion_usd"]
          [(2024, [Num (of_Z 7)]); (2025, [Num (of_Z 8)])].

(** A market table that stops before 2033. *)
Definition sample_sportswear_to_2024 : frame :=
  mkFrame ["market_value_billion_usd"; "segment"]
          [(2023, [Num (of_Z 200); Text "historical"]);
           (2024, [Num (of_Z 214); Text "historical"])].

(** A jersey table whose value column carries the label of the sportswear
    table's. *)
Definition sample_jersey_same_label : frame :=
  mkFrame ["market_value_billion_usd"]
          [(2024, [Num (of_Z 7)]); (2025, [Num (of_Z 8)])].

(** Two tables that both call their value column [value]. *)
Definition sample_value_2023 : frame :=
  mkFrame ["value"] [(2023, [Num (of_Z 1)])].

Definition sample_value_2024 : frame :=
  mkFrame ["value"] [(2024, [Num (of_Z 2)])].

End Market.

(* ================================================================= *)
(** ** Column reductions *)

Module Series.

Definition present (xs : list float64) : list float64 :=
  filter (fun x => negb (is_nan x)) xs.

(** [Series.max()]: the largest value present, NaN when there is none. *)
Definition max (xs : list float64) : float64 :=
  match present xs with
  | [] => nan
  | y :: ys => fold_left (fun m x => if Float64.ltb m x then x else m) ys y
  end.

Definition sum (y : float64) (ys : list float64) : float64 :=
  fold_left Float64.add ys y.

(** [Series.mean()]: the sum of the values present over their number,
    NaN when there is none.  (The values are added from the first to the
    last.) *)
Definition mean (xs : list float64) : float64 :=
  match present xs with
  | [] => nan
  | y :: ys =>
      Float64.div (sum y ys) (of_Z (Z.of_nat (List.length (y :: ys))))
  end.

(** [.iloc[0]] on a selection. *)
Definition iloc0 {A : Type} (l : list A) : result A :=
  match l with
  | [] => Error IndexError
  | a :: _ => Ok a
  end.

(** [df.nlargest(n, col)]: the [n] rows of largest key, largest first,
    rows of equal key in their order of appearance. *)
Fixpoint insert_desc {A : Type} (key : A -> float64) (a : A) (l : list A)
  : list A :=
  match l with
  | [] => [a]
  | b :: l' =>
      if Float64.ltb (key a) (key b) then b :: insert_desc key a l'
      else a :: l
  end.

Definition nlargest {A : Type} (n : nat) (key : A -> float64) (l : list A)
  : list A :=
  firstn n (fold_right (insert_desc key) [] l).

End Series.

(* ================================================================= *)
(** ** process_data.py: [DataProcessor] *)

Module DataProcessor.

Import Date.

(** A row of [google_trends.csv] after [pd.to_datetime] on its date; a
    date that is missing is [None] (NaT). *)
Record trend_row : Type := mkTrend {
  t_date : option date;
  t_tenniscore : float64;
  t_tennis_skirt : float64;
  t_soccer_jersey : float64;
  t_football_kit : float64;
  t_womens_activewear : float64;
  t_category : option string
}.

(** A row of [challengers_impact.csv]: its date and its impact cells. *)
Record impact_row : Type := mkImpact {
  i_date : option date;
  i_cells : list Market.cell
}.

(** The raw folder: what [read_csv] finds under each file name, [None]
    when the file is not there. *)
Record raw_files : Type := mkFiles {
  tenniscore_sales_csv : option (list Sales.raw_row);
  womens_sportswear_market_csv : option Market.frame;
  jersey_market_csv : option Market.frame;
  google_trends_csv : option (list trend_row);
  challengers_impact_csv : option (list impact_row)
}.

Definition read_csv {A : Type} (file : option A) (name : string) : result A :=
  match file with
  | Some df => Ok df
  | None => Error (FileNotFoundError name)
  end.

Definition load_tenniscore_sales (self : raw_files)
  : result (list Sales.long_row) :=
  df <-- read_csv (tenniscore_sales_csv self) "tenniscore_sales.csv" ;;
  Ok (Sales.load_tenniscore_sales df).

Definition load_market_data (self : raw_files) : result Market.frame :=
  sportswear <-- read_csv (womens_sportswear_market_csv self)
                   "womens_sportswear_market.csv" ;;
  jersey <-- read_csv (jersey_market_csv self) "jersey_market.csv" ;;
  Ok (Market.load_market_data sportswear jersey).

Definition load_trends_data (self : raw_files) : result (list trend_row) :=
  read_csv (google_trends_csv self) "google_trends.csv".

Definition load_challengers_impact (self : raw_files)
  : result (list impact_row) :=
  read_csv (challengers_impact_csv self) "challengers_impact.csv".

Record summary : Type := mkSummary {
  tenniscore_peak_growth : float64;
  market_2024_billion : Market.cell;
  market_2033_billion : Market.cell;
  market_growth_rate : float64;
  tenniscore_search_peak : float64;
  soccer_jersey_trend_current : float64;
  challengers_media_value_million : float64
}.

(** The float literals [7.0] and [42.5]. *)
Definition lit_7_0 : float64 := S754_finite false 7881299347898368 (-50).
Definition lit_42_5 : float64 := S754_finite false 5981343255101440 (-47).

Definition current_from : date := of_civil 2026 1 1.

(** [market[market['year'] == y]]. *)
Definition year_is (y : Z) (market : Market.frame)
  : list (Z * list Market.cell) :=
  filter (fun row => fst row =? y) (Market.rows market).

(** [trends[trends['date'] >= '2026-01-01']]. *)
Definition since (from : date) (trends : list trend_row) : list trend_row :=
  filter (fun r => match t_date r with
                   | Some d => from <=? d
                   | None => false
                   end) trends.

Definition create_summary_stats (self : raw_files) : result summary :=
  tenniscore <-- load_tenniscore_sales self ;;
  let top_items :=
    map (fun r => (Sales.l_item r, Sales.l_yoy_growth_pct r))
        (Series.nlargest 5 Sales.l_yoy_growth_pct tenniscore) in
  market <-- load_market_data self ;;
  latest_market <-- Series.iloc0 (year_is 2024 market) ;;
  projected_2033 <-- Series.iloc0 (year_is 2033 market) ;;
  trends <-- load_trends_data self ;;
  let peak_tenniscore := Series.max (map t_tenniscore trends) in
  let current_soccer :=
    Series.mean (map t_soccer_jersey (since current_from trends)) in
  top <-- Series.iloc0 top_items ;;
  m2024 <-- Market.getitem "market_value_billion_usd"
              (Market.columns market) (snd latest_market) ;;
  m2033 <-- Market.getitem "market_value_billion_usd"
              (Market.columns market) (snd projected_2033) ;;
  Ok (mkSummary (snd top) m2024 m2033 lit_7_0 peak_tenniscore
                current_soccer lit_42_5).

(** What [to_csv] leaves in the processed folder. *)
Inductive table : Type :=
| TSales (t : list Sales.long_row)
| TMarket (t : Market.frame)
| TTrends (t : list trend_row)
| TImpact (t : list impact_row)
| TSummary (t : summary).

Definition written : Type := list (string * table).

Record outputs : Type := mkOutputs {
  o_tenniscore : list Sales.long_row;
  o_market : Market.frame;
  o_trends : list trend_row;
  o_challengers : list impact_row;
  o_summary : summary
}.

(** [process_all], with the processed folder made explicit: the files
    written so far, and the dictionary returned or the exception that
    ended the run. *)
Definition process_all (self : raw_files) : written * result outputs :=
  match load_tenniscore_sales self with
  | Error e => ([], Error e)
  | Ok tenniscore =>
    let w1 := [("tenniscore_processed.csv", TSales tenniscore)] in
    match load_market_data self with
    | Error e => (w1, Error e)
    | Ok market =>
      let w2 := w1 ++ [("market_combined.csv", TMarket market)] in
      match load_trends_data self with
      | Error e => (w2, Error e)
      | Ok trends =>
        let w3 := w2 ++ [("trends_processed.csv", TTrends trends)] in
        match load_challengers_impact self with
        | Error e => (w3, Error e)
        | Ok challengers =>
          let w4 := w3 ++ [("challengers_processed.csv", TImpact challengers)] in
          match create_summary_stats self with
          | Error e => (w4, Error e)
          | Ok summary_ =>
            (w4 ++ [("summary_stats.csv", TSummary summary_)],
             Ok (mkOutputs tenniscore market trends challengers summary_))
          end
        end
      end
    end
  end.

(** The processed files in the order [process_all] writes them. *)
Definition file_order : list string :=
  ["tenniscore_processed.csv"; "market_combined.csv"; "trends_processed.csv";
   "challengers_processed.csv"; "summary_stats.csv"].


(** The raw folder with another trends file. *)
Definition with_trends (self : raw_files) (trends : list trend_row)
  : raw_files :=
  mkFiles (tenniscore_sales_csv self) (womens_sportswear_market_csv self)
          (jersey_market_csv self) (Some trends)
          (challengers_impact_csv self).

(** *** Sample folders *)

(** A row of the generator's file as the processor reads it back. *)
Definition of_generated (r : Collect.row) : trend_row :=
  mkTrend (Some (Collect.date_ r))
          (of_Z (Collect.tenniscore r)) (of_Z (Collect.tennis_skirt r))
          (of_Z (Collect.soccer_jersey r)) (of_Z (Collect.football_kit r))
          (of_Z (Collect.womens_activewear r))
          (Some (Collect.category r)).

Definition sample_trends : list trend_row :=
  match Collect.generate_sample_data with
  | Some rows => map of_generated rows
  | None => []
  end.

Definition sample_files : raw_files :=
  mkFiles (Some [Sales.sample_skirt; Sales.sample_polo; Sales.sample_visor])
          (Some Market.sample_sportswear) (Some Market.sample_jersey)
          (Some sample_trends) (Some []).

(** The same folder with a market file that stops before 2033. *)
Definition sample_files_to_2024 : raw_files :=
  mkFiles (Some [Sales.sample_skirt; Sales.sample_polo; Sales.sample_visor])
          (Some Market.sample_sportswear_to_2024) (Some Market.sample_jersey)
          (Some sample_trends) (Some []).

(** The same folder with a jersey file that shares the sportswear file's
    value label. *)
Definition sample_files_same_label : raw_files :=
  mkFiles (Some [Sales.sample_skirt; Sales.sample_polo; Sales.sample_visor])
          (Some Market.sample_sportswear)
          (Some Market.sample_jersey_same_label)
          (Some sample_trends) (Some []).


(** The same folder without the sales file. *)
Definition sample_files_no_sales_file : raw_files :=
  mkFiles None (Some Market.sample_sportswear) (Some Market.sample_jersey)
          (Some sample_trends) (Some []).

End DataProcessor.

(* ================================================================= *)
(** ** dashboard/app.py: the selections of the market tab *)

Module Dashboard.

(** [market[label]]: the column under a label, a [KeyError] when the frame
    has no such label. *)
Definition column (label : string) (market : Market.frame)
  : result (list Market.cell) :=
  if existsb (String.eqb label) (Market.columns market)
  then Ok (map (fun row =>
                  match Market.getitem label (Market.columns market) (snd row)
                  with
                  | Ok v => v
                  | Error _ => Market.Null
                  end) (Market.rows market))
  else Error (KeyError label).

(** [cell == 'forecast']; a missing or numeric cell is not equal to the
    text. *)
Definition is_forecast (v : Market.cell) : bool :=
  match v with
  | Market.Text s => String.eqb s "forecast"
  | _ => false
  end.

(** [df[mask]]: the rows whose mask is true. *)
Definition select {A : Type} (mask : list bool) (l : list A) : list A :=
  map snd (filter fst (combine mask l)).

(** [data['market'][data['market']['segment'] != 'forecast']]. *)
Definition historical (market : Market.frame)
  : result (list (Z * list Market.cell)) :=
  segment <-- column "segment" market ;;
  Ok (select (map (fun v => negb (is_forecast v)) segment)
             (Market.rows market)).

(** [data['market'][data['market']['segment'] == 'forecast']]. *)
Definition forecast (market : Market.frame)
  : result (list (Z * list Market.cell)) :=
  segment <-- column "segment" market ;;
  Ok (select (map is_forecast segment) (Market.rows market)).

(** *** Vocabulary of the selections' properties *)

(** The cell a row holds under a label of the frame. *)
Definition cell_under (label : string) (market : Market.frame)
           (row : Z * list Market.cell) : Market.cell :=
  match Market.getitem label (Market.columns market) (snd row) with
  | Ok v => v
  | Error _ => Market.Null
  end.

(** *** Sample tables *)

(** A market table without the segment column. *)
Definition sample_no_segment : Market.frame :=
  Market.mkFrame ["market_value_billion_usd"]
                 [(2023, [Market.Num (of_Z 200)])].

End Dashboard.

(* ================================================================= *)
(** ** The order of floats *)

Module Float64Order.

(** [x <= y] on floats; false when either is NaN. *)
Definition leb : float64 -> float64 -> bool := SFleb.

(** A float that is not NaN, placed in the lexicographic order of integer
    triples: the class (infinities, signs, zero), then exponent and
    mantissa, both negated for a negative value. *)
Definition code (x : float64) : Z * Z * Z :=
  match x with
  | S754_zero _ => (0, 0, 0)
  | S754_infinity false => (2, 0, 0)
  | S754_infinity true => (-2, 0, 0)
  | S754_nan => (0, 0, 0)
  | S754_finite false m e => (1, e, Zpos m)
  | S754_finite true m e => (-1, - e, Zneg m)
  end.

Definition lt3 (a b : Z * Z * Z) : Prop :=
  let '(a1, a2, a3) := a in
  let '(b1, b2, b3) := b in
  a1 < b1 \/ (a1 = b1 /\ (a2 < b2 \/ (a2 = b2 /\ a3 < b3))).

End Float64Order.

(* ================================================================= *)
(** ** collect_trends.py: [collect_trends_data] and the script's entry *)

Module Trends.

Import Date.

(** A frame of search interest: indexed by its dates as the service
    returns it, the dates as its first column, [date], once the index is
    reset.  [columns] are the labels of the other columns. *)
Record frame : Type := mkFrame {
  columns : list string;
  rows : list (date * list Market.cell)
}.

(** What one request to the trends service comes to: an exception out of
    [build_payload] or [interest_over_time], or a frame. *)
Inductive response : Type :=
| Raises
| Responds (interest_df : frame).

Definition keywords : list (string * list string) :=
  [("tenniscore",
    ["tenniscore"; "tennis skirt"; "tennis dress"; "challengers fashion"]);
   ("soccer_fashion",
    ["soccer jersey"; "football kit"; "world cup jersey";
     "vintage soccer jersey"]);
   ("womens_sports",
    ["womens activewear"; "womens sports fashion"; "athleisure women"])].

(** [df.empty]: no row or no column. *)
Definition empty (f : frame) : bool :=
  match columns f, rows f with
  | [], _ => true
  | _, [] => true
  | _, _ => false
  end.

(** [label in df.columns]. *)
Definition has_label (label : string) (cols : list string) : bool :=
  existsb (String.eqb label) cols.

Fixpoint drop_cells (label : string) (cols : list string)
         (cells : list Market.cell) : list Market.cell :=
  match cols, cells with
  | c :: cols', v :: cells' =>
      if String.eqb c label then drop_cells label cols' cells'
      else v :: drop_cells label cols' cells'
  | _, _ => []
  end.

(** [df.drop(columns=[label])]. *)
Definition drop (label : string) (f : frame) : frame :=
  mkFrame (filter (fun c => negb (String.eqb c label)) (columns f))
          (map (fun r => (fst r, drop_cells label (columns f) (snd r)))
               (rows f)).

Fixpoint set_cells (label : string) (v : Market.cell) (cols : list string)
         (cells : list Market.cell) : list Market.cell :=
  match cols, cells with
  | c :: cols', x :: cells' =>
      (if String.eqb c label then v else x) :: set_cells label v cols' cells'
  | _, _ => []
  end.

(** [df[label] = v]: the column is overwritten when the frame has the
    label, and added as the last column otherwise. *)
Definition setitem (label : string) (v : Market.cell) (f : frame) : frame :=
  if has_label label (columns f)
  then mkFrame (columns f)
               (map (fun r => (fst r, set_cells label v (columns f) (snd r)))
                    (rows f))
  else mkFrame (columns f ++ [label])
               (map (fun r => (fst r, snd r ++ [v])) (rows f)).

(** [df.reset_index(inplace=True)] on a frame indexed by [date]: the index
    becomes the first column; a frame that already has a column of that
    label raises ([None]). *)
Definition reset_index (f : frame) : option frame :=
  if has_label "date" (columns f) then None else Some f.

(** The labels of several frames, each once, in the order they first
    appear. *)
Fixpoint first_seen (seen : list string) (labels : list string)
  : list string :=
  match labels with
  | [] => []
  | c :: labels' =>
      if has_label c seen then first_seen seen labels'
      else c :: first_seen (c :: seen) labels'
  end.

(** The cells of a row under other labels, null where the row has none. *)
Definition reindex (to cols : list string) (cells : list Market.cell)
  : list Market.cell :=
  map (fun c => match Market.getitem c cols cells with
                | Ok v => v
                | Error _ => Market.Null
                end) to.

(** [pd.concat(frames, ignore_index=True)]: the rows of the frames one
    after the other, under the union of their labels.  (The labels within
    a frame are distinct.) *)
Definition concat (frames : list frame) : frame :=
  let labels := first_seen [] (flat_map columns frames) in
  mkFrame labels
          (flat_map (fun f => map (fun r => (fst r,
                                             reindex labels (columns f) (snd r)))
                                  (rows f))
                    frames).

(** The loop's variables: the frames gathered and the seconds slept. *)
Record state : Type := mkState {
  all_data : list frame;
  slept : Z
}.

(** One round of the loop for a group of terms. *)
Definition attempt (service : list string -> response)
           (category : string) (terms : list string) (st : state) : state :=
  match service terms with
  | Raises => st
  | Responds interest_df =>
      if empty interest_df then mkState (all_data st) (slept st + 2)
      else
        let interest_df :=
          if has_label "isPartial" (columns interest_df)
          then drop "isPartial" interest_df
          else interest_df in
        let interest_df :=
          setitem "category" (Market.Text category) interest_df in
        match reset_index interest_df with
        | None => st
        | Some interest_df =>
            mkState (all_data st ++ [interest_df]) (slept st + 2)
        end
  end.

(** A call that returns or raises. *)
Inductive outcome (A : Type) : Type :=
| Returned (a : A)
| Raised.

Arguments Returned {A} a.
Arguments Raised {A}.

(** What a call of [collect_trends_data] leaves: the frame returned
    ([None] for Python's [None]), the file written, the seconds slept. *)
Record collected : Type := mkCollected {
  returned : option frame;
  google_trends_csv : option frame;
  seconds_slept : Z
}.

(** [collect_trends_data]; [trend_req] is the service once [TrendReq] has
    been built, [None] when building it raises. *)
Definition collect_trends_data (trend_req : option (list string -> response))
  : outcome collected :=
  match trend_req with
  | None => Raised
  | Some service =>
      let st :=
        fold_left (fun st kw => attempt service (fst kw) (snd kw) st)
                  keywords (mkState [] 0) in
      match all_data st with
      | [] => Returned (mkCollected None None (slept st))
      | _ :: _ =>
          let combined_df := concat (all_data st) in
          Returned (mkCollected (Some combined_df) (Some combined_df)
                                (slept st))
      end
  end.



(** *** Vocabulary of the collector's properties *)

(** The frame of a response is gathered: it is not empty and has no
    column labelled [date]. *)
Definition usable (f : frame) : bool :=
  negb (empty f) && negb (has_label "date" (columns f)).

(** The frame a response adds to the collection. *)
Definition prepared (category : string) (f : frame) : frame :=
  setitem "category" (Market.Text category)
    (if has_label "isPartial" (columns f) then drop "isPartial" f else f).

(** What the round of a group adds to the frames gathered. *)
Definition gathered (service : list string -> response)
           (kw : string * list string) : list frame :=
  match service (snd kw) with
  | Responds f => if usable f then [prepared (fst kw) f] else []
  | Raises => []
  end.


(** The round of a group ends with the pause. *)
Definition pauses (service : list string -> response)
           (kw : string * list string) : bool :=
  match service (snd kw) with
  | Responds f => empty f || negb (has_label "date" (columns f))
  | Raises => false
  end.

(** Every row of the frame has one cell per column. *)
Definition rectangular (f : frame) : Prop :=
  Forall (fun r => List.length (snd r) = List.length (columns f)) (rows f).

(** *** Sample services *)

Definition sample_interest (terms : list string) : frame :=
  mkFrame (terms ++ ["isPartial"])
          [(of_civil 2023 1 1,
            map (fun _ => Market.Num (of_Z 50)) terms ++ [Market.Text "False"]);
           (of_civil 2023 1 8,
            map (fun _ => Market.Num (of_Z 60)) terms ++ [Market.Text "True"])].

(** A service that answers every request. *)
Definition service_up (terms : list string) : response :=
  Responds (sample_interest terms).


(** A service that fails on the soccer terms only. *)
Definition service_no_soccer (terms : list string) : response :=
  if has_label "soccer jersey" terms then Raises
  else Responds (sample_interest terms).

End Trends.

(* ================================================================= *)
(** * Properties *)

(** ** Lists *)

(** Closes [NoDup] and [Forall] goals on lists written out in full. *)
Ltac written_out := repeat constructor; simpl; intuition discriminate.

Module ListFacts.

Lemma filter_split_length {A : Type} (p : A -> bool) (l : list A) :
  (List.length (filter (fun a => negb (p a)) l)
   + List.length (filter p l) = List.length l)%nat.
Proof.
  induction l as [| a l IH]; simpl; [reflexivity |].
  destruct (p a); simpl; lia.
Qed.

Lemma filter_of_map {A B : Type} (p : B -> bool) (g : A -> B) (l : list A) :
  filter p (map g l) = map g (filter (fun a => p (g a)) l).
Proof.
  induction l as [| a l IH]; simpl; [reflexivity |].
  destruct (p (g a)); simpl; rewrite IH; reflexivity.
Qed.

Lemma filter_none {A : Type} (p : A -> bool) (l : list A) :
  forallb (fun a => negb (p a)) l = true -> filter p l = [].
Proof.
  induction l as [| a l IH]; simpl; [reflexivity |].
  intros H. apply andb_true_iff in H as [Ha Hl].
  apply negb_true_iff in Ha. rewrite Ha. auto.
Qed.

Lemma filter_all {A : Type} (p : A -> bool) (l : list A) :
  forallb p l = true -> filter p l = l.
Proof.
  induction l as [| a l IH]; simpl; [reflexivity |].
  intros H. apply andb_true_iff in H as [Ha Hl].
  rewrite Ha, IH by assumption. reflexivity.
Qed.

Lemma forallb_weaken {A : Type} (p q : A -> bool) (l : list A) :
  (forall a, p a = true -> q a = true) ->
  forallb p l = true -> forallb q l = true.
Proof.
  intros Hpq. rewrite !forallb_forall. auto.
Qed.

Lemma nth_error_block {A : Type} (b0 b1 : list A) (n i : nat) :
  List.length b0 = n ->
  nth_error (b0 ++ b1) (n + i) = nth_error b1 i.
Proof.
  intros <-. rewrite nth_error_app2 by lia. f_equal. lia.
Qed.

Lemma nth_error_first {A : Type} (b0 b1 : list A) (i : nat) (a : A) :
  nth_error b0 i = Some a -> nth_error (b0 ++ b1) i = Some a.
Proof.
  intros H. rewrite nth_error_app1; [assumption |].
  apply nth_error_Some. congruence.
Qed.

Lemma nodup_absorb {A : Type} (dec : forall x y : A, {x = y} + {x <> y})
      (l l' : list A) :
  incl l l' -> nodup dec (l ++ l') = nodup dec l'.
Proof.
  induction l as [| a l IH]; intros H; simpl; [reflexivity |].
  destruct (in_dec dec a (l ++ l')) as [_ | N].
  - apply IH. intros x Hx. apply H. right. exact Hx.
  - exfalso. apply N. apply in_or_app. right. apply H. left. reflexivity.
Qed.

Lemma flat_map_singletons {A B : Type} (f : A -> list B) (g : A -> B)
      (l : list A) :
  (forall a, In a l -> f a = [g a]) -> flat_map f l = map g l.
Proof.
  induction l as [| a l IH]; simpl; intros H; [reflexivity |].
  rewrite (H a) by auto. simpl. f_equal. auto.
Qed.

Lemma nth_error_lt {A : Type} (l : list A) (j : nat) (a : A) :
  nth_error l j = Some a -> (j < List.length l)%nat.
Proof. intros H. apply nth_error_Some. congruence. Qed.

Lemma filter_length_le {A : Type} (p : A -> bool) (l : list A) :
  (List.length (filter p l) <= List.length l)%nat.
Proof.
  induction l as [| a l IH]; simpl; [lia |].
  destruct (p a); simpl; lia.
Qed.

End ListFacts.

(** ** The error monad on [option] *)

Lemma obind_Some {A B : Type} (m : option A) (k : A -> option B) (b : B) :
  obind m k = Some b -> exists a, m = Some a /\ k a = Some b.
Proof.
  destruct m as [a |]; simpl; [eauto | discriminate].
Qed.

Lemma mapM_In {A B : Type} (f : A -> option B) (l : list A) (l' : list B) :
  mapM f l = Some l' ->
  forall b, In b l' -> exists a, In a l /\ f a = Some b.
Proof.
  revert l'; induction l as [| a l IH]; simpl; intros l' H b Hb.
  - injection H as <-. destruct Hb.
  - apply obind_Some in H as (b0 & Hb0 & H).
    apply obind_Some in H as (bs & Hbs & H).
    injection H as <-.
    destruct Hb as [<- | Hb].
    + exists a; auto.
    + destruct (IH bs Hbs b Hb) as (a' & Ha' & Hf). exists a'; auto.
Qed.

(** ** Truncation of floats *)

Module Float64Facts.

Lemma truncates_inject (z : Z) : truncates (inject_Z z) z.
Proof.
  unfold truncates. rewrite <- !Zle_Qle, <- !Zlt_Qlt. lia.
Qed.

Lemma shiftr_bounds (m p : positive) :
  let D := Zpos (Pos.pow 2 p) in
  Z.shiftl (Zpos m) (Zneg p) * D <= Zpos m
  /\ Zpos m < (Z.shiftl (Zpos m) (Zneg p) + 1) * D.
Proof.
  intro D.
  assert (HD : 0 < D) by (unfold D; lia).
  assert (E : Z.shiftl (Zpos m) (Zneg p) = Zpos m / D).
  { rewrite Z.shiftl_div_pow2 by lia. unfold D.
    rewrite Pos2Z.inj_pow. reflexivity. }
  rewrite E.
  pose proof (Z.mul_div_le (Zpos m) D HD).
  pose proof (Z.mul_succ_div_gt (Zpos m) D HD).
  nia.
Qed.

Lemma trunc_truncates (x : float64) (z : Z) :
  trunc x = Some z -> truncates (to_Q x) z.
Proof.
  destruct x as [s | s | | s m e]; unfold trunc, to_Q; try discriminate.
  - intros H; injection H as <-. apply truncates_inject.
  - intros H; injection H as <-.
    destruct e as [| p | p].
    + rewrite Z.shiftl_mul_pow2 by lia. apply truncates_inject.
    + rewrite Z.shiftl_mul_pow2 by lia. apply truncates_inject.
    + pose proof (shiftr_bounds m p) as [Hlo Hhi].
      set (D := Pos.pow 2 p) in *.
      set (t := Z.shiftl (Zpos m) (Zneg p)) in *.
      unfold truncates, Qle, Qlt; cbn [Qnum Qden inject_Z].
      destruct s; cbn [cond_Zopp]; split; intros; lia.
Qed.

(** The literals are the correctly rounded quotients of their decimal
    fractions. *)
Lemma literals_nearest :
  lit_0_8 = Float64.div (of_Z 8) (of_Z 10)
  /\ lit_0_7 = Float64.div (of_Z 7) (of_Z 10).
Proof. split; reflexivity. Qed.

End Float64Facts.

(** ** The synthetic generator *)

Module CollectFacts.

Import Date Collect Float64Facts.

Lemma int_truncates (a : pynum) (z : Z) :
  Py.int a = Some z -> truncates (Py.value a) z.
Proof.
  destruct a as [n | x]; simpl.
  - intros H; injection H as <-. apply truncates_inject.
  - apply trunc_truncates.
Qed.

(** What the dictionary of one date holds. *)
Lemma sample_row_inv (d : date) (r : row) :
  sample_row d = Some r ->
  date_ r = d
  /\ Py.int (tenniscore_val d) = Some (tenniscore r)
  /\ Py.int (Py.mul (tenniscore_val d) (PyFloat lit_0_8)) = Some (tennis_skirt r)
  /\ Py.int (soccer_val d) = Some (soccer_jersey r)
  /\ Py.int (Py.mul (soccer_val d) (PyFloat lit_0_7)) = Some (football_kit r)
  /\ Py.int (womens_val d) = Some (womens_activewear r).
Proof.
  unfold sample_row. intros H.
  apply obind_Some in H as (t & Ht & H).
  apply obind_Some in H as (ts & Hts & H).
  apply obind_Some in H as (s & Hs & H).
  apply obind_Some in H as (fk & Hfk & H).
  apply obind_Some in H as (w & Hw & H).
  injection H as <-.
  cbn [date_ tenniscore tennis_skirt soccer_jersey football_kit
       womens_activewear].
  repeat split; assumption.
Qed.

Lemma generated_from_grid (rows : list row) (r : row) :
  generate_sample_data = Some rows -> In r rows ->
  In (date_ r) dates /\ sample_row (date_ r) = Some r.
Proof.
  intros Hg Hr.
  destruct (mapM_In _ _ _ Hg r Hr) as (d & Hd & Hs).
  pose proof (sample_row_inv d r Hs) as (E & _).
  rewrite E. auto.
Qed.

(** The epoch, and the weekdays of the grid's first date (a Sunday) and of
    the center date (a Friday). *)
Lemma calendar :
  of_civil 1970 1 1 = 0
  /\ of_civil 2000 3 1 = 11017
  /\ weekday (of_civil 1970 1 1) = 3
  /\ weekday grid_start = 6
  /\ weekday grid_end = 6
  /\ weekday center = 4.
Proof. repeat split. Qed.

Lemma boost_window :
  boost_from = center - 25 /\ boost_to = center + 97.
Proof. split; reflexivity. Qed.

(** Outside the boost window the value is the integer baseline. *)
Lemma tenniscore_val_outside (d : date) :
  d < boost_from \/ boost_to < d -> tenniscore_val d = PyInt 20.
Proof.
  intros H. unfold tenniscore_val, tenniscore_boost.
  replace ((boost_from <=? d) && (d <=? boost_to)) with false.
  - reflexivity.
  - symmetry. apply andb_false_iff.
    rewrite Z.leb_gt, Z.leb_gt. destruct H; auto.
Qed.

Lemma tenniscore_val_far (d : date) :
  120 < Z.abs (d - center) -> tenniscore_val d = PyInt 20.
Proof.
  intros H. apply tenniscore_val_outside.
  destruct boost_window as [-> ->]. lia.
Qed.

(** The grid is weekly on Sundays and the center date is a Friday: no
    generated row is dated at the center. *)
Lemma center_off_grid : forall d, In d dates -> weekday d = 6.
Proof.
  assert (H : forallb (fun d => weekday d =? 6) dates = true)
    by (vm_compute; reflexivity).
  intros d Hd. rewrite forallb_forall in H.
  apply Z.eqb_eq. auto.
Qed.

Lemma generated_bounded :
  match generate_sample_data with
  | Some rows => forallb above_baselines rows = true
  | None => False
  end.
Proof. vm_compute. reflexivity. Qed.

(** C8.  In the generator's tenniscore series the value at the fixed
    center date (2024-04-26) is the baseline plus 60, that is 80, and the
    value at every date more than 120 days before or after the center is
    the baseline 20 exactly; both hold of the per-date computation and of
    every row the generator emits. *)
Theorem tenniscore_center_and_tails :
  (exists r, sample_row center = Some r /\ tenniscore r = 80)
  /\ (forall d, 120 < Z.abs (d - center) ->
        Py.int (tenniscore_val d) = Some 20)
  /\ (exists rows, generate_sample_data = Some rows /\
        forall r, In r rows ->
          (date_ r = center -> tenniscore r = 80)
          /\ (120 < Z.abs (date_ r - center) -> tenniscore r = 20)).
Proof.
  split; [| split].
  - eexists. split; [vm_compute; reflexivity | reflexivity].
  - intros d H. rewrite (tenniscore_val_far d H). reflexivity.
  - destruct generate_sample_data as [rows |] eqn:Hg.
    2: { pose proof generated_bounded as B. rewrite Hg in B. destruct B. }
    exists rows. split; [reflexivity |].
    intros r Hr.
    destruct (generated_from_grid rows r Hg Hr) as [Hd Hs].
    pose proof (sample_row_inv _ _ Hs) as (_ & Ht & _).
    split; intros H.
    + pose proof (center_off_grid _ Hd) as W. rewrite H in W.
      vm_compute in W. discriminate.
    + rewrite (tenniscore_val_far _ H) in Ht. simpl in Ht.
      injection Ht as <-. reflexivity.
Qed.

Lemma tenniscore_center_and_tails_witness :
  120 < Z.abs (of_civil 2025 1 5 - center)
  /\ Py.int (tenniscore_val (of_civil 2025 1 5)) = Some 20.
Proof.
  split; [reflexivity |].
  apply (proj1 (proj2 tenniscore_center_and_tails)). reflexivity.
Defined.

(** C10.  The generator emits one row per date of its weekly grid; in
    every row each of the five numeric columns is the integer obtained by
    truncating the computed value toward zero, and the primary series
    stay at or above their baselines: tenniscore >= 20,
    soccer_jersey >= 30, womens_activewear >= 40. *)
Theorem generated_columns_truncated_and_bounded :
  exists rows,
    generate_sample_data = Some rows
    /\ map date_ rows = dates
    /\ forall r, In r rows ->
         truncates (Py.value (tenniscore_val (date_ r))) (tenniscore r)
         /\ truncates
              (Py.value (Py.mul (tenniscore_val (date_ r)) (PyFloat lit_0_8)))
              (tennis_skirt r)
         /\ truncates (Py.value (soccer_val (date_ r))) (soccer_jersey r)
         /\ truncates
              (Py.value (Py.mul (soccer_val (date_ r)) (PyFloat lit_0_7)))
              (football_kit r)
         /\ truncates (Py.value (womens_val (date_ r))) (womens_activewear r)
         /\ 20 <= tenniscore r
         /\ 30 <= soccer_jersey r
         /\ 40 <= womens_activewear r.
Proof.
  pose proof generated_bounded as B.
  destruct generate_sample_data as [rows |] eqn:Hg; [| destruct B].
  exists rows. split; [reflexivity |]. split.
  - revert Hg. vm_compute. intros H; injection H as <-. reflexivity.
  - intros r Hr.
    destruct (generated_from_grid rows r Hg Hr) as [_ Hs].
    pose proof (sample_row_inv _ _ Hs) as (_ & Ht & Hts & Hsj & Hfk & Hw).
    rewrite forallb_forall in B. specialize (B r Hr).
    unfold above_baselines in B.
    apply andb_true_iff in B as [B B3].
    apply andb_true_iff in B as [B1 B2].
    apply Z.leb_le in B1, B2, B3.
    split; [apply int_truncates; assumption |].
    split; [apply int_truncates; assumption |].
    split; [apply int_truncates; assumption |].
    split; [apply int_truncates; assumption |].
    split; [apply int_truncates; assumption |].
    auto.
Qed.

Lemma generated_columns_truncated_and_bounded_witness :
  match generate_sample_data with
  | Some (r :: _) =>
      truncates (Py.value (tenniscore_val (date_ r))) (tenniscore r)
      /\ 20 <= tenniscore r
  | _ => False
  end.
Proof.
  destruct generated_columns_truncated_and_bounded as (rows & Hg & Hd & H).
  rewrite Hg. destruct rows as [| r rows].
  - vm_compute in Hd. discriminate.
  - destruct (H r (or_introl eq_refl)) as (T & _ & _ & _ & _ & B & _).
    split; assumption.
Defined.

End CollectFacts.

(** ** The demographic reshaper *)

Module SalesFacts.

Import Sales ListFacts.

(** Stripping the suffix leaves the four labels. *)
Lemma clean_label (c : demo_col) :
  Str.replace "_growth_pct" "" (col_name c) = label c.
Proof. destruct c; reflexivity. Qed.

Lemma clean_melt_cell (c : demo_col) (df : list raw_row) :
  clean_names (map (melt_cell c) df) = map (long_of c) df.
Proof.
  unfold clean_names. rewrite map_map. apply map_ext.
  intros r. unfold melt_cell, long_of. simpl.
  rewrite clean_label. reflexivity.
Qed.

Lemma clean_melt (df : list raw_row) :
  clean_names (melt demo_cols df)
  = map (long_of GenZ) df ++ map (long_of Millennial) df
    ++ map (long_of GenX) df ++ map (long_of BabyBoomer) df.
Proof.
  unfold melt, demo_cols. simpl flat_map. rewrite app_nil_r.
  unfold clean_names. rewrite !map_app.
  fold (clean_names (map (melt_cell GenZ) df)).
  fold (clean_names (map (melt_cell Millennial) df)).
  fold (clean_names (map (melt_cell GenX) df)).
  fold (clean_names (map (melt_cell BabyBoomer) df)).
  rewrite !clean_melt_cell. reflexivity.
Qed.

Lemma load_blocks (df : list raw_row) :
  load_tenniscore_sales df
  = block GenZ df ++ block Millennial df
    ++ block GenX df ++ block BabyBoomer df.
Proof.
  unfold load_tenniscore_sales, dropna, block.
  rewrite clean_melt, !filter_app. reflexivity.
Qed.

Lemma melted_length (df : list raw_row) :
  List.length (clean_names (melt demo_cols df)) = (4 * List.length df)%nat.
Proof.
  rewrite clean_melt. rewrite !length_app, !length_map. lia.
Qed.

(** With the identifier columns present, a melted row holds a missing
    value exactly when its [demo_growth_pct] is missing. *)
Lemma has_na_ids_present (c : demo_col) (r : raw_row) :
  ids_present r = true -> has_na (long_of c r) = demo_missing (long_of c r).
Proof.
  unfold ids_present, has_na, demo_missing, long_of. simpl.
  destruct (category r), (item r); try discriminate.
  intros H. apply negb_true_iff in H. rewrite H. reflexivity.
Qed.

Lemma has_na_complete (c : demo_col) (r : raw_row) :
  complete r = true -> has_na (long_of c r) = false.
Proof.
  unfold complete. intros H. apply andb_true_iff in H as [Hi Hd].
  rewrite (has_na_ids_present c r Hi).
  unfold demos_present in Hd. rewrite forallb_forall in Hd.
  unfold demo_missing, long_of. simpl.
  apply negb_true_iff. apply Hd. destruct c; simpl; auto.
Qed.

Lemma block_complete (c : demo_col) (df : list raw_row) :
  forallb complete df = true -> block c df = map (long_of c) df.
Proof.
  intros H. unfold block. rewrite filter_of_map.
  rewrite filter_all; [reflexivity |].
  revert H. apply forallb_weaken. intros r Hr.
  rewrite (has_na_complete c r Hr). reflexivity.
Qed.

Lemma missing_in_block (c : demo_col) (df : list raw_row) :
  forallb ids_present df = true ->
  filter has_na (map (long_of c) df)
  = filter demo_missing (map (long_of c) df).
Proof.
  intros H. rewrite forallb_forall in H.
  apply filter_ext_in. intros l Hl.
  apply in_map_iff in Hl as (r & <- & Hr).
  apply has_na_ids_present. auto.
Qed.

Lemma missing_cells (c : demo_col) (df : list raw_row) :
  List.length (filter demo_missing (map (long_of c) df))
  = List.length (filter (fun r => is_nan (col_value c r)) df).
Proof.
  rewrite filter_of_map, length_map. reflexivity.
Qed.

(** *** Row count *)

Lemma load_length (df : list raw_row) :
  List.length (load_tenniscore_sales df)
  = (4 * List.length df
     - List.length (filter has_na (clean_names (melt demo_cols df))))%nat.
Proof.
  pose proof (filter_split_length has_na (clean_names (melt demo_cols df))) as H.
  rewrite melted_length in H.
  unfold load_tenniscore_sales, dropna. lia.
Qed.

Lemma dropped_ids_present (df : list raw_row) :
  forallb ids_present df = true ->
  filter has_na (clean_names (melt demo_cols df))
  = filter demo_missing (clean_names (melt demo_cols df)).
Proof.
  intros H. rewrite clean_melt, !filter_app.
  rewrite !(missing_in_block _ df H). reflexivity.
Qed.

Lemma missing_count (df : list raw_row) :
  List.length (filter demo_missing (clean_names (melt demo_cols df)))
  = (List.length (filter (fun r => is_nan (gen_z_growth_pct r)) df)
     + List.length (filter (fun r => is_nan (millennial_growth_pct r)) df)
     + List.length (filter (fun r => is_nan (gen_x_growth_pct r)) df)
     + List.length (filter (fun r => is_nan (baby_boomer_growth_pct r)) df))%nat.
Proof.
  rewrite clean_melt, !filter_app, !length_app, !missing_cells.
  simpl col_value. lia.
Qed.

(** C1 (as amended).  The reshaper emits four melted rows per input row
    and drops every melted row that holds a missing value in any column
    (category, item, yoy_growth_pct or demo_growth_pct): the output has
    4 times the input row count minus the number of such rows, and none of
    its rows holds a missing value.  When no
    identifier cell is missing this is 4 times the input row count minus
    the number of melted rows whose demo_growth_pct is missing; in
    particular a 3-row input with exactly one missing gen_x_growth_pct and
    no other missing cell gives 11 rows. *)
Theorem reshaped_row_count (df : list raw_row) :
  let melted := clean_names (melt demo_cols df) in
  List.length melted = (4 * List.length df)%nat
  /\ List.length (load_tenniscore_sales df)
     = (4 * List.length df - List.length (filter has_na melted))%nat
  /\ forallb (fun l => negb (has_na l)) (load_tenniscore_sales df) = true
  /\ (forallb ids_present df = true ->
      List.length (load_tenniscore_sales df)
      = (4 * List.length df - List.length (filter demo_missing melted))%nat)
  /\ (List.length df = 3%nat ->
      forallb present_but_gen_x df = true ->
      List.length (filter (fun r => is_nan (gen_x_growth_pct r)) df) = 1%nat ->
      List.length (load_tenniscore_sales df) = 11%nat).
Proof.
  intros melted. unfold melted.
  split; [apply melted_length |].
  split; [apply load_length |].
  split.
  { apply forallb_forall. intros l Hl.
    unfold load_tenniscore_sales, dropna in Hl.
    apply filter_In in Hl. tauto. }
  split.
  - intros H. rewrite load_length, (dropped_ids_present df H). reflexivity.
  - intros Hn Hp Hx.
    assert (Hi : forallb ids_present df = true).
    { revert Hp. apply forallb_weaken. unfold present_but_gen_x.
      intros r Hr. rewrite !andb_true_iff in Hr. tauto. }
    rewrite load_length, (dropped_ids_present df Hi), missing_count, Hx, Hn.
    rewrite !filter_none; [reflexivity | | |];
      revert Hp; apply forallb_weaken; unfold present_but_gen_x;
      intros r Hr; rewrite !andb_true_iff in Hr; tauto.
Qed.

Lemma reshaped_row_count_witness :
  List.length (load_tenniscore_sales [sample_skirt; sample_polo; sample_visor])
  = 11%nat.
Proof.
  apply (proj2 (proj2 (proj2 (proj2
           (reshaped_row_count [sample_skirt; sample_polo; sample_visor])))));
    reflexivity.
Defined.

(** A missing growth figure takes all four melted rows of its input row
    with it, although none of their demo_growth_pct is missing. *)
Lemma row_count_missing_growth :
  List.length (load_tenniscore_sales [sample_no_growth]) = 0%nat
  /\ (4 * List.length [sample_no_growth]
      - List.length (filter demo_missing
                       (clean_names (melt demo_cols [sample_no_growth]))))%nat
     = 4%nat.
Proof. split; reflexivity. Qed.

(** *** Row order *)

(** C2 (as amended).  The reshaper's output is ordered by demographic
    first: the surviving rows of gen_z, then of millennial, gen_x and
    baby_boomer, in declaration order, and within the block of one
    demographic the rows keep the input row order.  For an input of n rows
    with no missing value the row of demographic number k and input row i
    stands at position k * n + i. *)
Theorem reshaped_order (df : list raw_row) :
  load_tenniscore_sales df
  = block GenZ df ++ block Millennial df ++ block GenX df ++ block BabyBoomer df
  /\ (forallb complete df = true ->
      forall c i r,
        nth_error df i = Some r ->
        nth_error (load_tenniscore_sales df)
                  (position c * List.length df + i)
        = Some (long_of c r)).
Proof.
  split; [apply load_blocks |].
  intros H c i r Hr.
  rewrite load_blocks, !(block_complete _ df H).
  assert (L : forall c', List.length (map (long_of c') df) = List.length df)
    by (intros; apply length_map).
  assert (N : forall c', nth_error (map (long_of c') df) i = Some (long_of c' r))
    by (intros; rewrite nth_error_map, Hr; reflexivity).
  destruct c; simpl position.
  - simpl. apply nth_error_first, N.
  - replace (1 * List.length df + i)%nat with (List.length df + i)%nat by lia.
    rewrite nth_error_block by apply L.
    apply nth_error_first, N.
  - replace (2 * List.length df + i)%nat
      with (List.length df + (List.length df + i))%nat by lia.
    rewrite !nth_error_block by apply L.
    apply nth_error_first, N.
  - replace (3 * List.length df + i)%nat
      with (List.length df + (List.length df + (List.length df + i)))%nat by lia.
    rewrite !nth_error_block by apply L.
    apply N.
Qed.

Lemma reshaped_order_witness :
  nth_error (load_tenniscore_sales [sample_skirt; sample_visor]) 5
  = Some (long_of GenX sample_visor).
Proof.
  apply (proj2 (reshaped_order [sample_skirt; sample_visor])
           eq_refl GenX 1%nat sample_visor eq_refl).
Defined.

(** On a two-row table without missing values the output is not in
    row-major order: its second row is the gen_z row of the second input
    row, not the millennial row of the first. *)
Lemma order_not_row_major :
  exists df,
    forallb complete df = true
    /\ nth_error (load_tenniscore_sales df) 1 = Some (long_of GenZ sample_visor)
    /\ nth_error (row_major df) 1 = Some (long_of Millennial sample_skirt)
    /\ load_tenniscore_sales df <> row_major df.
Proof.
  exists [sample_skirt; sample_visor].
  split; [reflexivity |]. split; [reflexivity |]. split; [reflexivity |].
  intros E. apply (f_equal (fun l => nth_error l 1)) in E.
  vm_compute in E. discriminate.
Qed.

(** *** Round trip *)

Lemma key_of_long (c : demo_col) (r : raw_row) :
  key_of (long_of c r) = raw_key r.
Proof. reflexivity. Qed.

Lemma filter_key (df : list raw_row) (r : raw_row) :
  NoDup (map raw_key df) -> In r df ->
  filter (fun a => if key_eq_dec (raw_key r) (raw_key a) then true else false) df
  = [r].
Proof.
  induction df as [| a df IH]; intros ND Hr; [destruct Hr |].
  cbn [map] in ND. inversion ND as [| k ks Hk ND']; subst.
  cbn [filter].
  destruct Hr as [-> | Hr].
  - destruct (key_eq_dec (raw_key r) (raw_key r)) as [_ | N]; [| congruence].
    f_equal. apply filter_none. apply forallb_forall. intros x Hx.
    destruct (key_eq_dec (raw_key r) (raw_key x)) as [E | _]; [| reflexivity].
    exfalso. apply Hk. rewrite E. apply in_map. exact Hx.
  - destruct (key_eq_dec (raw_key r) (raw_key a)) as [E | _].
    + exfalso. apply Hk. rewrite <- E. apply in_map. exact Hr.
    + apply IH; assumption.
Qed.

Lemma group_of_block (c : demo_col) (df : list raw_row) (r : raw_row) :
  NoDup (map raw_key df) -> In r df ->
  group (raw_key r) (map (long_of c) df) = [long_of c r].
Proof.
  intros ND Hr. unfold group. rewrite filter_of_map.
  exact (f_equal (map (long_of c)) (filter_key df r ND Hr)).
Qed.

Lemma keys_of_block (c : demo_col) (df : list raw_row) :
  map key_of (map (long_of c) df) = map raw_key df.
Proof. rewrite map_map. reflexivity. Qed.

Lemma rebuild_row (r : raw_row) :
  let g := [long_of GenZ r; long_of Millennial r;
            long_of GenX r; long_of BabyBoomer r] in
  mkRaw (fst (fst (raw_key r))) (snd (fst (raw_key r))) (snd (raw_key r))
        (spread (label GenZ) g) (spread (label Millennial) g)
        (spread (label GenX) g) (spread (label BabyBoomer) g)
  = r.
Proof. destruct r; reflexivity. Qed.

(** C5 (as amended).  For a raw sales table with no missing value in any
    of its seven columns and pairwise distinct (category, item,
    yoy_growth_pct) triples, unpivoting with the reshaper and re-pivoting
    the result gives back the table itself, rows in their original order
    (so in particular up to row and column order). *)
Theorem unpivot_repivot (df : list raw_row) :
  forallb complete df = true ->
  NoDup (map raw_key df) ->
  repivot (load_tenniscore_sales df) = df.
Proof.
  intros Hc ND.
  rewrite load_blocks, !(block_complete _ df Hc).
  unfold repivot.
  rewrite !map_app, !keys_of_block.
  rewrite !nodup_absorb
    by (intros x Hx; repeat (apply in_or_app; right); exact Hx
        || (apply in_or_app; left; exact Hx) || exact Hx).
  rewrite (nodup_fixed_point key_eq_dec ND).
  rewrite map_map.
  transitivity (map (fun r : raw_row => r) df); [| apply map_id].
  apply map_ext_in. intros r Hr. cbv zeta.
  unfold group. rewrite !filter_app.
  fold (group (raw_key r) (map (long_of GenZ) df)).
  fold (group (raw_key r) (map (long_of Millennial) df)).
  fold (group (raw_key r) (map (long_of GenX) df)).
  fold (group (raw_key r) (map (long_of BabyBoomer) df)).
  rewrite !(group_of_block _ df r ND Hr).
  apply rebuild_row.
Qed.

Lemma unpivot_repivot_witness :
  repivot (load_tenniscore_sales [sample_skirt; sample_visor])
  = [sample_skirt; sample_visor].
Proof.
  apply unpivot_repivot.
  - reflexivity.
  - written_out.
Defined.

(** A table with every demographic cell present but a missing growth
    figure is not reconstructed: the reshaper drops all its rows. *)
Lemma round_trip_missing_growth :
  exists df,
    forallb demos_present df = true
    /\ repivot (load_tenniscore_sales df) = []
    /\ ~ Permutation (repivot (load_tenniscore_sales df)) df.
Proof.
  exists [sample_no_growth].
  split; [reflexivity |]. split; [reflexivity |].
  intros P. apply Permutation_length in P. discriminate.
Qed.

(** Two complete rows under the same identifiers fall into one group: the
    re-pivot gives a single row for the two. *)
Lemma round_trip_duplicate_key :
  forallb complete [sample_skirt; sample_skirt_again] = true
  /\ repivot (load_tenniscore_sales [sample_skirt; sample_skirt_again])
     = [sample_skirt].
Proof. split; reflexivity. Qed.

End SalesFacts.

(** ** The market merger *)

Module MarketFacts.

Import Market ListFacts.

(** *** The keys of the join *)

Lemma insert_key_In (k x : Z) (ks : list Z) :
  In x (insert_key k ks) <-> x = k \/ In x ks.
Proof.
  induction ks as [| k' ks IH]; simpl.
  - intuition.
  - destruct (k <? k') eqn:Hlt; [simpl; intuition |].
    destruct (k =? k') eqn:Heq.
    + apply Z.eqb_eq in Heq. subst. simpl. intuition.
    + simpl. rewrite IH. intuition.
Qed.

Lemma insert_key_sorted (k : Z) (ks : list Z) :
  StronglySorted Z.lt ks -> StronglySorted Z.lt (insert_key k ks).
Proof.
  induction ks as [| k' ks IH]; simpl; intros S.
  - repeat constructor.
  - inversion S as [| ? ? S' F]; subst.
    destruct (k <? k') eqn:Hlt.
    + apply Z.ltb_lt in Hlt. constructor; [assumption |].
      constructor; [assumption |].
      eapply Forall_impl; [| exact F]. intros; simpl in *; lia.
    + destruct (k =? k') eqn:Heq; [assumption |].
      apply Z.ltb_ge in Hlt. apply Z.eqb_neq in Heq.
      constructor; [auto |].
      apply Forall_forall. intros x Hx.
      apply insert_key_In in Hx as [-> | Hx]; [lia |].
      rewrite Forall_forall in F. auto.
Qed.

Lemma keys_In (ys : list Z) (x : Z) :
  In x (fold_right insert_key [] ys) <-> In x ys.
Proof.
  induction ys as [| y ys IH]; simpl; [tauto |].
  rewrite insert_key_In, IH. intuition.
Qed.

Lemma keys_sorted (ys : list Z) :
  StronglySorted Z.lt (fold_right insert_key [] ys).
Proof.
  induction ys as [| y ys IH]; simpl; [constructor |].
  apply insert_key_sorted, IH.
Qed.

Lemma sorted_NoDup (ks : list Z) : StronglySorted Z.lt ks -> NoDup ks.
Proof.
  induction 1 as [| k ks S IH F]; constructor; [| assumption].
  intros Hk. rewrite Forall_forall in F. specialize (F k Hk). lia.
Qed.

(** Two strictly increasing lists with the same elements are equal. *)
Lemma sorted_unique (a b : list Z) :
  StronglySorted Z.lt a -> StronglySorted Z.lt b ->
  (forall x, In x a <-> In x b) -> a = b.
Proof.
  intros Sa. revert b.
  induction Sa as [| x a Sa IH Fa]; intros b Sb H.
  - destruct b as [| y b]; [reflexivity |].
    destruct (proj2 (H y) (or_introl eq_refl)).
  - destruct Sb as [| y b Sb Fb].
    + destruct (proj1 (H x) (or_introl eq_refl)).
    + rewrite Forall_forall in Fa, Fb.
      assert (E : x = y).
      { destruct (proj1 (H x) (or_introl eq_refl)) as [E | Hx]; [auto |].
        destruct (proj2 (H y) (or_introl eq_refl)) as [E | Hy]; [auto |].
        specialize (Fa y Hy). specialize (Fb x Hx). lia. }
      subst y. f_equal. apply IH; [assumption |].
      intros z. split; intros Hz.
      * destruct (proj1 (H z) (or_intror Hz)) as [E | Hz']; [| assumption].
        specialize (Fa z Hz). lia.
      * destruct (proj2 (H z) (or_intror Hz)) as [E | Hz']; [| assumption].
        specialize (Fb z Hz). lia.
Qed.

Lemma join_keys_In (l r : frame) (y : Z) :
  In y (join_keys l r) <-> In y (years l) \/ In y (years r).
Proof.
  unfold join_keys. rewrite keys_In, in_app_iff. tauto.
Qed.

Lemma join_keys_sorted (l r : frame) : StronglySorted Z.lt (join_keys l r).
Proof. apply keys_sorted. Qed.

Lemma join_keys_comm (l r : frame) : join_keys l r = join_keys r l.
Proof.
  apply sorted_unique; try apply join_keys_sorted.
  intros x. rewrite !join_keys_In. tauto.
Qed.

(** *** The rows of one year *)

Lemma with_year_In (k : Z) (f : frame) (row : Z * list cell) :
  In row (with_year k f) <-> In row (rows f) /\ fst row = k.
Proof.
  unfold with_year. rewrite filter_In, Z.eqb_eq. tauto.
Qed.

Lemma unique_year (rs : list (Z * list cell)) (k : Z) :
  NoDup (map fst rs) ->
  Nat.le (List.length (filter (fun row => fst row =? k) rs)) 1.
Proof.
  induction rs as [| a rs IH]; simpl; intros ND; [lia |].
  inversion ND as [| ? ? Ha ND']; subst.
  destruct (fst a =? k) eqn:E; [| auto].
  apply Z.eqb_eq in E.
  replace (filter (fun row => fst row =? k) rs) with (@nil (Z * list cell));
    [simpl; lia |].
  symmetry. destruct (filter _ rs) as [| b bs] eqn:F; [reflexivity |].
  exfalso. apply Ha.
  assert (Hb : In b (filter (fun row => fst row =? k) rs))
    by (rewrite F; left; reflexivity).
  apply filter_In in Hb as [Hb Hk]. apply Z.eqb_eq in Hk.
  rewrite E, <- Hk. apply in_map. exact Hb.
Qed.

Lemma cells_of_None (k : Z) (f : frame) :
  cells_of k f = None <-> ~ In k (years f).
Proof.
  unfold cells_of, years.
  destruct (with_year k f) as [| row rs] eqn:E; split; intros H;
    try reflexivity; try discriminate.
  - intros Hk. apply in_map_iff in Hk as (row & Hf & Hr).
    assert (Hw : In row (with_year k f)) by (apply with_year_In; auto).
    rewrite E in Hw. destruct Hw.
  - exfalso. apply H.
    assert (Hw : In row (with_year k f)) by (rewrite E; left; reflexivity).
    apply with_year_In in Hw as [Hr Hk]. rewrite <- Hk.
    apply in_map. exact Hr.
Qed.

Lemma cells_of_Some (k : Z) (f : frame) (a : list cell) :
  cells_of k f = Some a -> In (k, a) (rows f).
Proof.
  unfold cells_of.
  destruct (with_year k f) as [| row rs] eqn:E; [discriminate |].
  intros H; injection H as <-.
  assert (Hw : In row (with_year k f)) by (rewrite E; left; reflexivity).
  apply with_year_In in Hw as [Hr Hk]. destruct row as [y c].
  simpl in *. subst. exact Hr.
Qed.

(** With distinct years on both sides the join has at most one row per
    year: the cells of the left table followed by those of the right. *)
Lemma join_key_unique (l r : frame) (k : Z) :
  NoDup (years l) -> NoDup (years r) ->
  join_key l r k
  = match cells_of k l, cells_of k r with
    | None, None => []
    | _, _ => [(k, side l k ++ side r k)]
    end.
Proof.
  intros Nl Nr.
  pose proof (unique_year (rows l) k Nl) as Ul.
  pose proof (unique_year (rows r) k Nr) as Ur.
  unfold join_key, side, cells_of.
  fold (with_year k l) in Ul. fold (with_year k r) in Ur.
  destruct (with_year k l) as [| a [| a' ls]];
    destruct (with_year k r) as [| b [| b' rs]];
    simpl in Ul, Ur; try lia; reflexivity.
Qed.

Lemma merged_rows (l r : frame) :
  NoDup (years l) -> NoDup (years r) ->
  rows (merge_outer l r)
  = map (fun k => (k, side l k ++ side r k)) (join_keys l r).
Proof.
  intros Nl Nr. simpl. apply flat_map_singletons.
  intros k Hk. rewrite (join_key_unique l r k Nl Nr).
  apply join_keys_In in Hk.
  destruct (cells_of k l) eqn:El; [reflexivity |].
  destruct (cells_of k r) eqn:Er; [reflexivity |].
  apply cells_of_None in El, Er. tauto.
Qed.

Lemma merged_years (l r : frame) :
  NoDup (years l) -> NoDup (years r) ->
  years (merge_outer l r) = join_keys l r.
Proof.
  intros Nl Nr. unfold years. rewrite (merged_rows l r Nl Nr), map_map.
  simpl. apply map_id.
Qed.

Lemma merged_row_inv (l r : frame) (y : Z) (cells : list cell) :
  NoDup (years l) -> NoDup (years r) ->
  In (y, cells) (rows (merge_outer l r)) ->
  (In y (years l) \/ In y (years r)) /\ cells = side l y ++ side r y.
Proof.
  intros Nl Nr H. rewrite (merged_rows l r Nl Nr) in H.
  apply in_map_iff in H as (k & E & Hk). injection E as -> <-.
  apply join_keys_In in Hk. auto.
Qed.

(** *** Labels and null cells *)

Lemma suffixed_unique (sfx : string) (others : list string) (c : string) :
  ~ In c others -> suffixed sfx others c = c.
Proof.
  intros H. unfold suffixed.
  destruct (existsb (String.eqb c) others) eqn:E; [| reflexivity].
  apply existsb_exists in E as (x & Hx & Hc).
  apply String.eqb_eq in Hc. subst. contradiction.
Qed.

Lemma nth_error_nulls (n j : nat) :
  (j < n)%nat -> nth_error (nulls n) j = Some Null.
Proof.
  revert j; induction n as [| n IH]; intros j H; [lia |].
  destruct j as [| j]; simpl; [reflexivity |]. apply IH. lia.
Qed.

Lemma row_width (f : frame) (y : Z) (a : list cell) :
  well_formed f -> In (y, a) (rows f) -> List.length a = width f.
Proof.
  intros W H. unfold well_formed in W. rewrite Forall_forall in W.
  exact (W (y, a) H).
Qed.

Lemma getitem_nth (c : string) (cols : list string) (cells : list cell)
      (i : nat) (v : cell) :
  NoDup cols ->
  nth_error cols i = Some c -> nth_error cells i = Some v ->
  getitem c cols cells = Ok v.
Proof.
  revert cols cells.
  induction i as [| i IH]; intros [| c' cols] [| v' cells] ND Hc Hv;
    try discriminate.
  - simpl in Hc, Hv. injection Hc as ->. injection Hv as ->.
    simpl. rewrite String.eqb_refl. reflexivity.
  - simpl in Hc, Hv. inversion ND as [| ? ? Hn ND']; subst. simpl.
    destruct (String.eqb c c') eqn:E.
    + apply String.eqb_eq in E. subst c'.
      exfalso. apply Hn. eapply nth_error_In. exact Hc.
    + apply (IH cols cells ND' Hc Hv).
Qed.

Lemma left_only (l r : frame) (y : Z) (cells : list cell) :
  NoDup (years l) -> NoDup (years r) ->
  In (y, cells) (rows (merge_outer l r)) -> ~ In y (years r) ->
  exists a, In (y, a) (rows l) /\ cells = a ++ nulls (width r).
Proof.
  intros Nl Nr H Hr.
  destruct (merged_row_inv l r y cells Nl Nr H) as [Hy ->].
  unfold side at 2. rewrite (proj2 (cells_of_None y r) Hr).
  unfold side. destruct (cells_of y l) as [a |] eqn:El.
  - exists a. split; [apply cells_of_Some; assumption | reflexivity].
  - apply cells_of_None in El. tauto.
Qed.

Lemma right_only (l r : frame) (y : Z) (cells : list cell) :
  NoDup (years l) -> NoDup (years r) ->
  In (y, cells) (rows (merge_outer l r)) -> ~ In y (years l) ->
  exists b, In (y, b) (rows r) /\ cells = nulls (width l) ++ b.
Proof.
  intros Nl Nr H Hl.
  destruct (merged_row_inv l r y cells Nl Nr H) as [Hy ->].
  unfold side at 1. rewrite (proj2 (cells_of_None y l) Hl).
  unfold side. destruct (cells_of y r) as [b |] eqn:Er.
  - exists b. split; [apply cells_of_Some; assumption | reflexivity].
  - apply cells_of_None in Er. tauto.
Qed.

(** C3.  For two yearly tables without duplicate years the merged table
    has exactly one row per year of the union of the operands' years; in
    the row of a year that only one operand has, every column of the other
    operand is null, and a column unique to that other operand keeps its
    label and reads null under it.  In particular, years 2023, 2024, 2033 merged with years 2024,
    2025 give the four rows 2023, 2024, 2025, 2033, the second operand's
    columns null in the rows of 2023 and 2033. *)
Theorem outer_join_on_year (l r : frame) :
  well_formed l ->
  NoDup (years l) -> NoDup (years r) ->
  let m := merge_outer l r in
  (forall y, In y (years m) <-> In y (years l) \/ In y (years r))
  /\ NoDup (years m)
  /\ (forall y cells,
        In (y, cells) (rows m) -> ~ In y (years r) ->
        (exists a, In (y, a) (rows l) /\ cells = a ++ nulls (width r))
        /\ forall j c,
             nth_error (columns r) j = Some c -> ~ In c (columns l) ->
             nth_error (columns m) (width l + j) = Some c
             /\ nth_error cells (width l + j) = Some Null
             /\ (NoDup (columns m) -> getitem c (columns m) cells = Ok Null))
  /\ (forall y cells,
        In (y, cells) (rows m) -> ~ In y (years l) ->
        (exists b, In (y, b) (rows r) /\ cells = nulls (width l) ++ b)
        /\ forall j c,
             nth_error (columns l) j = Some c -> ~ In c (columns r) ->
             nth_error (columns m) j = Some c
             /\ nth_error cells j = Some Null
             /\ (NoDup (columns m) -> getitem c (columns m) cells = Ok Null))
  /\ ((forall y, In y (years l) <-> In y [2023; 2024; 2033]) ->
      (forall y, In y (years r) <-> In y [2024; 2025]) ->
      years m = [2023; 2024; 2025; 2033]
      /\ forall y cells,
           In (y, cells) (rows m) -> y = 2023 \/ y = 2033 ->
           exists a, In (y, a) (rows l) /\ cells = a ++ nulls (width r)).
Proof.
  intros Wl Nl Nr m. unfold m; clear m.
  split; [| split; [| split; [| split]]].
  - intros y. rewrite (merged_years l r Nl Nr). apply join_keys_In.
  - rewrite (merged_years l r Nl Nr).
    apply sorted_NoDup, join_keys_sorted.
  - intros y cells H Hr.
    destruct (left_only l r y cells Nl Nr H Hr) as (a & Ha & ->).
    split; [exists a; auto |].
    intros j c Hj Hc.
    pose proof (row_width l y a Wl Ha) as La.
    pose proof (nth_error_lt _ _ _ Hj) as Lj.
    assert (Hlabel : nth_error (columns (merge_outer l r)) (width l + j)
                     = Some c).
    { simpl. unfold merged_columns.
      rewrite nth_error_app2 by (rewrite length_map; unfold width; lia).
      rewrite length_map. unfold width.
      replace (List.length (columns l) + j - List.length (columns l))%nat
        with j by lia.
      rewrite nth_error_map, Hj. simpl.
      rewrite (suffixed_unique _ _ _ Hc). reflexivity. }
    assert (Hcell : nth_error (a ++ nulls (width r)) (width l + j)
                    = Some Null).
    { rewrite nth_error_app2 by lia.
      apply nth_error_nulls. unfold width in *. lia. }
    split; [exact Hlabel |]. split; [exact Hcell |].
    intros ND. exact (getitem_nth _ _ _ _ _ ND Hlabel Hcell).
  - intros y cells H Hl.
    destruct (right_only l r y cells Nl Nr H Hl) as (b & Hb & ->).
    split; [exists b; auto |].
    intros j c Hj Hc.
    pose proof (nth_error_lt _ _ _ Hj) as Lj.
    assert (Hlabel : nth_error (columns (merge_outer l r)) j = Some c).
    { simpl. unfold merged_columns.
      rewrite nth_error_app1 by (rewrite length_map; exact Lj).
      rewrite nth_error_map, Hj. simpl.
      rewrite (suffixed_unique _ _ _ Hc). reflexivity. }
    assert (Hcell : nth_error (nulls (width l) ++ b) j = Some Null).
    { rewrite nth_error_app1
        by (unfold nulls; rewrite repeat_length; exact Lj).
      apply nth_error_nulls. exact Lj. }
    split; [exact Hlabel |]. split; [exact Hcell |].
    intros ND. exact (getitem_nth _ _ _ _ _ ND Hlabel Hcell).
  - intros Hl Hr. split.
    + rewrite (merged_years l r Nl Nr).
      apply sorted_unique; [apply join_keys_sorted | |].
      * repeat constructor; lia.
      * intros x. rewrite join_keys_In, Hl, Hr. simpl. intuition.
    + intros y cells H Hy.
      apply (left_only l r y cells Nl Nr H).
      rewrite Hr. simpl. lia.
Qed.

Lemma outer_join_on_year_witness :
  years (merge_outer sample_sportswear sample_jersey)
  = [2023; 2024; 2025; 2033].
Proof.
  assert (Wl : well_formed sample_sportswear) by (repeat constructor).
  assert (Nl : NoDup (years sample_sportswear)) by written_out.
  assert (Nr : NoDup (years sample_jersey)) by written_out.
  apply (outer_join_on_year sample_sportswear sample_jersey Wl Nl Nr).
  - intros y. reflexivity.
  - intros y. reflexivity.
Defined.

(** *** Exchanging the operands *)

Lemma getitem_absent (c : string) (cols : list string) (a : list cell) :
  ~ In c cols -> getitem c cols a = Error (KeyError c).
Proof.
  revert a; induction cols as [| c' cols IH]; intros a H; [reflexivity |].
  destruct a as [| v a]; [reflexivity |]. simpl.
  destruct (String.eqb c c') eqn:E.
  - apply String.eqb_eq in E. subst. exfalso. apply H. left. reflexivity.
  - apply IH. intros Hc. apply H. right. exact Hc.
Qed.

Lemma getitem_app_left (c : string) (cols cols' : list string)
      (a b : list cell) :
  In c cols -> List.length a = List.length cols ->
  getitem c (cols ++ cols') (a ++ b) = getitem c cols a.
Proof.
  revert a; induction cols as [| c' cols IH]; intros a H L; [destruct H |].
  destruct a as [| v a]; [discriminate |]. simpl.
  destruct (String.eqb c c') eqn:E; [reflexivity |].
  apply IH.
  - destruct H as [-> | H]; [| exact H].
    rewrite String.eqb_refl in E. discriminate.
  - simpl in L. lia.
Qed.

Lemma getitem_app_right (c : string) (cols cols' : list string)
      (a b : list cell) :
  ~ In c cols -> List.length a = List.length cols ->
  getitem c (cols ++ cols') (a ++ b) = getitem c cols' b.
Proof.
  revert a; induction cols as [| c' cols IH]; intros a H L.
  - destruct a; [reflexivity | discriminate].
  - destruct a as [| v a]; [discriminate |]. simpl.
    destruct (String.eqb c c') eqn:E.
    + apply String.eqb_eq in E. subst. exfalso. apply H. left. reflexivity.
    + apply IH; [| simpl in L; lia].
      intros Hc. apply H. right. exact Hc.
Qed.

Lemma side_width (f : frame) (k : Z) :
  well_formed f -> List.length (side f k) = width f.
Proof.
  intros W. unfold side. destruct (cells_of k f) as [a |] eqn:E.
  - apply (row_width f k a W). apply cells_of_Some. exact E.
  - apply repeat_length.
Qed.

Lemma merged_columns_disjoint (l r : frame) :
  disjoint_labels l r ->
  merged_columns l r = columns l ++ columns r
  /\ merged_columns r l = columns r ++ columns l.
Proof.
  intros D. unfold merged_columns.
  assert (Il : forall sfx, map (suffixed sfx (columns r)) (columns l) = columns l).
  { intros sfx. rewrite <- (map_id (columns l)) at 2.
    apply map_ext_in. intros c Hc. apply suffixed_unique. auto. }
  assert (Ir : forall sfx, map (suffixed sfx (columns l)) (columns r) = columns r).
  { intros sfx. rewrite <- (map_id (columns r)) at 2.
    apply map_ext_in. intros c Hc. apply suffixed_unique.
    intros Hl. exact (D c Hl Hc). }
  rewrite !Il, !Ir. auto.
Qed.

(** C6 (as amended).  For two yearly tables without duplicate years that
    share no column label other than [year], merging them in either order
    gives the same years in the same order, the same labels up to their
    order, and under every label the same cell in the rows of a same
    year. *)
Theorem merge_commutes_on_disjoint_labels (l r : frame) :
  well_formed l -> well_formed r ->
  NoDup (years l) -> NoDup (years r) ->
  disjoint_labels l r ->
  years (merge_outer l r) = years (merge_outer r l)
  /\ Permutation (columns (merge_outer l r)) (columns (merge_outer r l))
  /\ forall y cells cells' c,
       In (y, cells) (rows (merge_outer l r)) ->
       In (y, cells') (rows (merge_outer r l)) ->
       getitem c (columns (merge_outer l r)) cells
       = getitem c (columns (merge_outer r l)) cells'.
Proof.
  intros Wl Wr Nl Nr D.
  destruct (merged_columns_disjoint l r D) as [Clr Crl].
  split; [| split].
  - rewrite (merged_years l r Nl Nr), (merged_years r l Nr Nl).
    apply join_keys_comm.
  - simpl. rewrite Clr, Crl. apply Permutation_app_comm.
  - intros y cells cells' c H H'.
    destruct (merged_row_inv l r y cells Nl Nr H) as [_ ->].
    destruct (merged_row_inv r l y cells' Nr Nl H') as [_ ->].
    simpl columns. rewrite Clr, Crl.
    pose proof (side_width l y Wl) as Ll.
    pose proof (side_width r y Wr) as Lr.
    unfold width in Ll, Lr.
    destruct (in_dec string_dec c (columns l)) as [Hl | Hl].
    + rewrite (getitem_app_left c _ _ _ _ Hl Ll).
      rewrite (getitem_app_right c _ _ _ _ (D c Hl) Lr). reflexivity.
    + rewrite (getitem_app_right c _ _ _ _ Hl Ll).
      destruct (in_dec string_dec c (columns r)) as [Hr | Hr].
      * rewrite (getitem_app_left c _ _ _ _ Hr Lr). reflexivity.
      * rewrite (getitem_app_right c _ _ _ _ Hr Lr).
        rewrite !getitem_absent by assumption. reflexivity.
Qed.

Lemma merge_commutes_on_disjoint_labels_witness :
  years (merge_outer sample_sportswear sample_jersey)
  = years (merge_outer sample_jersey sample_sportswear).
Proof.
  apply (merge_commutes_on_disjoint_labels sample_sportswear sample_jersey).
  - written_out.
  - written_out.
  - written_out.
  - written_out.
  - intros c Hc Hr. simpl in Hc, Hr.
    destruct Hr as [<- | []]. intuition discriminate.
Defined.

(** Two tables that share the label [value]: both merge orders give the
    labels [value_x], [value_y] in the same order, but the cells under them
    are exchanged. *)
Lemma merge_exchanges_shared_labels :
  columns (merge_outer sample_value_2023 sample_value_2024)
  = ["value_x"; "value_y"]
  /\ columns (merge_outer sample_value_2024 sample_value_2023)
     = ["value_x"; "value_y"]
  /\ rows (merge_outer sample_value_2023 sample_value_2024)
     = [(2023, [Num (of_Z 1); Null]); (2024, [Null; Num (of_Z 2)])]
  /\ rows (merge_outer sample_value_2024 sample_value_2023)
     = [(2023, [Null; Num (of_Z 1)]); (2024, [Num (of_Z 2); Null])]
  /\ getitem "value_x" ["value_x"; "value_y"] [Num (of_Z 1); Null]
     <> getitem "value_x" ["value_x"; "value_y"] [Null; Num (of_Z 1)].
Proof.
  repeat split; try reflexivity. simpl. discriminate.
Qed.

End MarketFacts.

(** ** The summary deriver and the processor run *)

Module ProcessorFacts.

Import Date DataProcessor ListFacts.

(** *** Selections *)






(** *** [create_summary_stats] once the four files are read *)

Section Summary.

Variables (self : raw_files) (sales : list Sales.raw_row)
          (sportswear jersey : Market.frame) (trends : list trend_row).

Hypothesis sales_read : tenniscore_sales_csv self = Some sales.
Hypothesis sportswear_read : womens_sportswear_market_csv self = Some sportswear.
Hypothesis jersey_read : jersey_market_csv self = Some jersey.
Hypothesis trends_read : google_trends_csv self = Some trends.

Let market : Market.frame := Market.load_market_data sportswear jersey.
Let tenniscore : list Sales.long_row := Sales.load_tenniscore_sales sales.
Let field : string := "market_value_billion_usd".

Lemma create_summary_stats_read :
  create_summary_stats self
  = match year_is 2024 market, year_is 2033 market with
    | latest :: _, projected :: _ =>
        match Series.nlargest 5 Sales.l_yoy_growth_pct tenniscore with
        | [] => Error IndexError
        | top :: _ =>
            m2024 <-- Market.getitem field (Market.columns market) (snd latest) ;;
            m2033 <-- Market.getitem field (Market.columns market) (snd projected) ;;
            Ok (mkSummary (Sales.l_yoy_growth_pct top) m2024 m2033 lit_7_0
                  (Series.max (map t_tenniscore trends))
                  (Series.mean (map t_soccer_jersey (since current_from trends)))
                  lit_42_5)
        end
    | _, _ => Error IndexError
    end.
Proof.
  unfold create_summary_stats, load_tenniscore_sales, load_market_data,
    load_trends_data.
  rewrite sales_read, sportswear_read, jersey_read, trends_read.
  cbn [read_csv rbind].
  fold market. fold tenniscore. fold field.
  destruct (year_is 2024 market) as [| latest ?]; [reflexivity |].
  destruct (year_is 2033 market) as [| projected ?]; [reflexivity |].
  cbn [Series.iloc0 rbind].
  destruct (Series.nlargest 5 Sales.l_yoy_growth_pct tenniscore) as [| top ?];
    reflexivity.
Qed.



End Summary.



(** The float literals of the summary. *)
Lemma summary_literals :
  lit_7_0 = of_Z 7 /\ lit_42_5 = Float64.div (of_Z 85) (of_Z 2).
Proof. split; reflexivity. Qed.

(** *** The claims on the summary *)




(** When both market files carry the label [market_value_billion_usd] the
    merged table holds it only with the suffixes, and the lookup of the
    summary raises the [KeyError]. *)
Lemma summary_fails_without_field :
  Market.columns (Market.load_market_data Market.sample_sportswear
                    Market.sample_jersey_same_label)
  = ["market_value_billion_usd_x"; "segment"; "market_value_billion_usd_y"]
  /\ create_summary_stats sample_files_same_label
     = Error (KeyError "market_value_billion_usd").
Proof. split; reflexivity. Qed.



(** *** The processor run *)

(** The run ended with an exception after [n] files. *)
Ltac stopped_after n :=
  exists n; split;
  [reflexivity | split; [discriminate | intros [? ?]; discriminate]].

(** C7 (as amended).  A processor run derives and writes the five tables
    one after the other, in the order tenniscore, market, trends,
    challengers, summary, and ends at the first derivation that fails: the
    tables derived before it have been written, the failing table and every
    later one are not, and the run returns the failure.  All five files are
    written exactly when every derivation succeeds. *)
Theorem process_all_stops_at_first_failure (self : raw_files) :
  (forall e,
      load_tenniscore_sales self = Error e ->
      process_all self = ([], Error e))
  /\ (forall tenniscore,
        load_tenniscore_sales self = Ok tenniscore ->
        let w1 := [("tenniscore_processed.csv", TSales tenniscore)] in
        (forall e,
            load_market_data self = Error e ->
            process_all self = (w1, Error e))
        /\ forall market,
             load_market_data self = Ok market ->
             let w2 := w1 ++ [("market_combined.csv", TMarket market)] in
             (forall e,
                 load_trends_data self = Error e ->
                 process_all self = (w2, Error e))
             /\ forall trends,
                  load_trends_data self = Ok trends ->
                  let w3 := w2 ++ [("trends_processed.csv", TTrends trends)] in
                  (forall e,
                      load_challengers_impact self = Error e ->
                      process_all self = (w3, Error e))
                  /\ forall challengers,
                       load_challengers_impact self = Ok challengers ->
                       let w4 :=
                         w3 ++ [("challengers_processed.csv",
                                 TImpact challengers)] in
                       (forall e,
                           create_summary_stats self = Error e ->
                           process_all self = (w4, Error e))
                       /\ forall summary_,
                            create_summary_stats self = Ok summary_ ->
                            process_all self
                            = (w4 ++ [("summary_stats.csv", TSummary summary_)],
                               Ok (mkOutputs tenniscore market trends
                                             challengers summary_)))
  /\ (exists n, map fst (fst (process_all self)) = firstn n file_order
                /\ (n = 5%nat <-> exists o, snd (process_all self) = Ok o)).
Proof.
  split; [| split].
  - intros e H. unfold process_all. rewrite H. reflexivity.
  - intros tenniscore H1 w1. split.
    { intros e H. unfold process_all. rewrite H1, H. reflexivity. }
    intros market H2 w2. split.
    { intros e H. unfold process_all. rewrite H1, H2, H. reflexivity. }
    intros trends H3 w3. split.
    { intros e H. unfold process_all. rewrite H1, H2, H3, H. reflexivity. }
    intros challengers H4 w4. split.
    { intros e H. unfold process_all. rewrite H1, H2, H3, H4, H. reflexivity. }
    intros summary_ H. unfold process_all.
    rewrite H1, H2, H3, H4, H. reflexivity.
  - unfold process_all.
    destruct (load_tenniscore_sales self) as [tenniscore | e];
      [| stopped_after 0%nat].
    destruct (load_market_data self) as [market | e];
      [| stopped_after 1%nat].
    destruct (load_trends_data self) as [trends | e];
      [| stopped_after 2%nat].
    destruct (load_challengers_impact self) as [challengers | e];
      [| stopped_after 3%nat].
    destruct (create_summary_stats self) as [summary_ | e];
      [| stopped_after 4%nat].
    exists 5%nat. split; [reflexivity |].
    split; [intros _; eexists; reflexivity | reflexivity].
Qed.

Lemma process_all_stops_at_first_failure_witness :
  process_all sample_files_to_2024
  = ([("tenniscore_processed.csv",
       TSales (Sales.load_tenniscore_sales
                 [Sales.sample_skirt; Sales.sample_polo; Sales.sample_visor]));
      ("market_combined.csv",
       TMarket (Market.load_market_data Market.sample_sportswear_to_2024
                                         Market.sample_jersey));
      ("trends_processed.csv", TTrends sample_trends);
      ("challengers_processed.csv", TImpact [])],
     Error IndexError).
Proof.
  pose proof (proj1 (proj2 (process_all_stops_at_first_failure
                              sample_files_to_2024))) as P.
  destruct (P _ eq_refl) as [_ P2]. clear P.
  destruct (P2 _ eq_refl) as [_ P3]. clear P2.
  destruct (P3 _ eq_refl) as [_ P4]. clear P3.
  destruct (P4 _ eq_refl) as [P5 _]. clear P4.
  apply P5. reflexivity.
Defined.

(** The sales file is missing and the market, trends and challengers
    tables can all be derived, yet the run writes none of them. *)
Lemma missing_sales_file_stops_the_run :
  (exists market, load_market_data sample_files_no_sales_file = Ok market)
  /\ (exists trends, load_trends_data sample_files_no_sales_file = Ok trends)
  /\ (exists challengers,
        load_challengers_impact sample_files_no_sales_file = Ok challengers)
  /\ process_all sample_files_no_sales_file
     = ([], Error (FileNotFoundError "tenniscore_sales.csv")).
Proof.
  split; [eexists; reflexivity |].
  split; [eexists; reflexivity |].
  split; [eexists; reflexivity |].
  reflexivity.
Qed.

End ProcessorFacts.

(** ** The order of floats *)

Module OrderFacts.

Import Float64Order.

Ltac settle_compare :=
  eexists; (split; [reflexivity |]);
  split; split; intros; simpl in *;
  try discriminate; try reflexivity; try lia.

(** On floats that are not NaN the comparison is that of the codes. *)
Lemma compare_code (x y : float64) :
  is_nan x = false -> is_nan y = false ->
  exists c, SFcompare x y = Some c
            /\ (c = Lt <-> lt3 (code x) (code y))
            /\ (c = Gt <-> lt3 (code y) (code x)).
Proof.
  intros Hx Hy.
  destruct x as [sx | sx | | sx mx ex]; try discriminate;
    destruct y as [sy | sy | | sy my ey]; try discriminate;
    try destruct sx; try destruct sy; unfold SFcompare;
    try change (Pos.compare_cont Eq mx my) with (Pos.compare mx my);
    try (destruct (Z.compare_spec ex ey); destruct (Pos.compare_spec mx my));
    settle_compare.
Qed.

Lemma ltb_code (x y : float64) :
  is_nan x = false -> is_nan y = false ->
  (Float64.ltb x y = true <-> lt3 (code x) (code y)).
Proof.
  intros Hx Hy. destruct (compare_code x y Hx Hy) as (c & E & L & G).
  unfold Float64.ltb, SFltb. rewrite E.
  destruct c; split; intros H; try discriminate; try reflexivity;
    try (apply L; reflexivity); apply L in H; discriminate H.
Qed.

Lemma leb_code (x y : float64) :
  is_nan x = false -> is_nan y = false ->
  (leb x y = true <-> ~ lt3 (code y) (code x)).
Proof.
  intros Hx Hy. destruct (compare_code x y Hx Hy) as (c & E & L & G).
  unfold leb, SFleb. rewrite E.
  destruct c; split; intros H; try discriminate; try reflexivity.
  - intros K. apply G in K. discriminate.
  - intros K. apply G in K. discriminate.
  - exfalso. apply H. apply G. reflexivity.
Qed.

Lemma lt3_irrefl (a : Z * Z * Z) : ~ lt3 a a.
Proof. destruct a as [[a1 a2] a3]. unfold lt3. lia. Qed.

Lemma lt3_trans (a b c : Z * Z * Z) : lt3 a b -> lt3 b c -> lt3 a c.
Proof.
  destruct a as [[a1 a2] a3], b as [[b1 b2] b3], c as [[c1 c2] c3].
  unfold lt3. lia.
Qed.

Lemma lt3_cotrans (a b c : Z * Z * Z) : lt3 a c -> lt3 a b \/ lt3 b c.
Proof.
  destruct a as [[a1 a2] a3], b as [[b1 b2] b3], c as [[c1 c2] c3].
  unfold lt3. lia.
Qed.

End OrderFacts.

(** ** The peaks and the failures of the summary *)

Module PeakFacts.

Import Date DataProcessor ListFacts Float64Order OrderFacts.

(** The head of a list sorted by [insert_desc] is one of its rows and no
    row has a larger key. *)
Lemma sorted_desc_head {A : Type} (key : A -> float64) (l : list A) :
  (forall x, In x l -> is_nan (key x) = false) ->
  l <> [] ->
  exists h t,
    fold_right (Series.insert_desc key) [] l = h :: t
    /\ In h l
    /\ forall x, In x l -> ~ lt3 (code (key h)) (code (key x)).
Proof.
  induction l as [| a l IH]; intros N NE; [congruence |].
  destruct l as [| b l'].
  - exists a, []. split; [reflexivity |]. split; [left; reflexivity |].
    intros x [<- | []]. apply lt3_irrefl.
  - destruct IH as (h & t & E & Hh & Hmax).
    { intros x Hx. apply N. right. exact Hx. }
    { discriminate. }
    cbn [fold_right] in E |- *. rewrite E. cbn [Series.insert_desc].
    assert (Na : is_nan (key a) = false) by (apply N; left; reflexivity).
    assert (Nh : is_nan (key h) = false) by (apply N; right; exact Hh).
    destruct (Float64.ltb (key a) (key h)) eqn:L.
    + exists h, (Series.insert_desc key a t).
      split; [reflexivity |]. split; [right; exact Hh |].
      intros x [<- | Hx]; [| auto].
      apply (ltb_code _ _ Na Nh) in L. intros K.
      exact (lt3_irrefl _ (lt3_trans _ _ _ L K)).
    + exists a, (h :: t).
      split; [reflexivity |]. split; [left; reflexivity |].
      intros x [<- | Hx]; [apply lt3_irrefl |].
      intros K.
      destruct (lt3_cotrans _ (code (key h)) _ K) as [K' | K'].
      * apply (ltb_code _ _ Na Nh) in K'. congruence.
      * exact (Hmax x Hx K').
Qed.

(** [nlargest] puts first a row of largest key. *)
Lemma nlargest_head {A : Type} (n : nat) (key : A -> float64) (l : list A)
      (top : A) (rest : list A) :
  (forall x, In x l -> is_nan (key x) = false) ->
  Series.nlargest (S n) key l = top :: rest ->
  In top l /\ forall x, In x l -> leb (key x) (key top) = true.
Proof.
  intros N E. unfold Series.nlargest in E.
  destruct l as [| a l]; [discriminate |].
  destruct (sorted_desc_head key (a :: l) N) as (h & t & Es & Hh & Hmax);
    [discriminate |].
  rewrite Es in E. cbn [firstn] in E. injection E as <- _.
  split; [exact Hh |].
  intros x Hx. apply leb_code; auto.
Qed.

(** [Series.max] is a value present in the column and no value present is
    larger. *)
Lemma fold_max (ys : list float64) (y : float64) :
  (forall x, In x (y :: ys) -> is_nan x = false) ->
  let m := fold_left (fun m x => if Float64.ltb m x then x else m) ys y in
  In m (y :: ys) /\ forall x, In x (y :: ys) -> ~ lt3 (code m) (code x).
Proof.
  revert y. induction ys as [| a ys IH]; intros y N; cbn [fold_left].
  - split; [left; reflexivity |].
    intros x [<- | []]. apply lt3_irrefl.
  - assert (Ny : is_nan y = false) by (apply N; left; reflexivity).
    assert (Na : is_nan a = false) by (apply N; right; left; reflexivity).
    destruct (Float64.ltb y a) eqn:L.
    + destruct (IH a) as [Hin Hmax].
      { intros x Hx. apply N. right. exact Hx. }
      split; [right; exact Hin |].
      intros x [<- | Hx]; [| auto].
      apply (ltb_code _ _ Ny Na) in L. intros K.
      apply (Hmax a (or_introl eq_refl)).
      exact (lt3_trans _ _ _ K L).
    + destruct (IH y) as [Hin Hmax].
      { intros x [<- | Hx]; [exact Ny |]. apply N. right. right. exact Hx. }
      split.
      * destruct Hin as [<- | Hin]; [left; reflexivity | right; right; exact Hin].
      * intros x [<- | [<- | Hx]].
        -- apply Hmax. left. reflexivity.
        -- intros K.
           destruct (lt3_cotrans _ (code y) _ K) as [K' | K'].
           ++ exact (Hmax y (or_introl eq_refl) K').
           ++ apply (ltb_code _ _ Ny Na) in K'. congruence.
        -- apply Hmax. right. exact Hx.
Qed.

Lemma present_In (xs : list float64) (x : float64) :
  In x (Series.present xs) <-> In x xs /\ is_nan x = false.
Proof.
  unfold Series.present. rewrite filter_In, negb_true_iff. tauto.
Qed.

Lemma max_spec (xs : list float64) :
  (Series.present xs = [] /\ Series.max xs = nan)
  \/ (In (Series.max xs) (Series.present xs)
      /\ forall x, In x (Series.present xs) -> leb x (Series.max xs) = true).
Proof.
  unfold Series.max.
  destruct (Series.present xs) as [| y ys] eqn:E; [left; auto |].
  right.
  assert (N : forall x, In x (y :: ys) -> is_nan x = false).
  { intros x Hx. rewrite <- E in Hx. apply present_In in Hx. tauto. }
  destruct (fold_max ys y N) as [Hin Hmax].
  split; [exact Hin |].
  intros x Hx. apply leb_code; auto.
Qed.

Lemma reshaped_yoy_present (sales : list Sales.raw_row) (row : Sales.long_row) :
  In row (Sales.load_tenniscore_sales sales) ->
  is_nan (Sales.l_yoy_growth_pct row) = false.
Proof.
  unfold Sales.load_tenniscore_sales, Sales.dropna. intros H.
  apply filter_In in H as [_ H]. apply negb_true_iff in H.
  unfold Sales.has_na in H.
  destruct (Sales.l_category row), (Sales.l_item row); try discriminate.
  apply orb_false_iff in H. tauto.
Qed.

Lemma create_summary_stats_peaks (self : raw_files)
      (sales : list Sales.raw_row) (sportswear jersey : Market.frame)
      (trends : list trend_row) (s : summary) :
  tenniscore_sales_csv self = Some sales ->
  womens_sportswear_market_csv self = Some sportswear ->
  jersey_market_csv self = Some jersey ->
  google_trends_csv self = Some trends ->
  create_summary_stats self = Ok s ->
  (exists top rest,
      Series.nlargest 5 Sales.l_yoy_growth_pct
        (Sales.load_tenniscore_sales sales) = top :: rest
      /\ tenniscore_peak_growth s = Sales.l_yoy_growth_pct top)
  /\ tenniscore_search_peak s = Series.max (map t_tenniscore trends)
  /\ market_growth_rate s = lit_7_0
  /\ challengers_media_value_million s = lit_42_5.
Proof.
  intros Hs Hw Hj Ht.
  rewrite (ProcessorFacts.create_summary_stats_read
             self sales sportswear jersey trends Hs Hw Hj Ht).
  destruct (year_is 2024 _) as [| latest ?]; [discriminate |].
  destruct (year_is 2033 _) as [| projected ?]; [discriminate |].
  destruct (Series.nlargest 5 _ _) as [| top rest]; [discriminate |].
  destruct (Market.getitem _ _ (snd latest)) as [v24 |]; [| discriminate].
  destruct (Market.getitem _ _ (snd projected)) as [v33 |]; [| discriminate].
  cbn [rbind]. intros H; injection H as <-. cbn.
  split; [exists top, rest; auto | auto].
Qed.

(** X10.  When the summary is derived, tenniscore_peak_growth is the
    largest yoy_growth_pct of the reshaped sales table: it is the figure of
    one of its rows, no row has a larger one, and it is never NaN. *)
Theorem peak_growth_is_largest (self : raw_files)
        (sales : list Sales.raw_row) (sportswear jersey : Market.frame)
        (trends : list trend_row) (s : summary) :
  tenniscore_sales_csv self = Some sales ->
  womens_sportswear_market_csv self = Some sportswear ->
  jersey_market_csv self = Some jersey ->
  google_trends_csv self = Some trends ->
  create_summary_stats self = Ok s ->
  let tenniscore := Sales.load_tenniscore_sales sales in
  is_nan (tenniscore_peak_growth s) = false
  /\ (exists row, In row tenniscore
                  /\ Sales.l_yoy_growth_pct row = tenniscore_peak_growth s)
  /\ forall row, In row tenniscore ->
       leb (Sales.l_yoy_growth_pct row) (tenniscore_peak_growth s) = true.
Proof.
  intros Hs Hw Hj Ht Hok tenniscore.
  destruct (create_summary_stats_peaks self sales sportswear jersey trends s
              Hs Hw Hj Ht Hok) as ((top & rest & En & Ep) & _).
  destruct (nlargest_head 4 Sales.l_yoy_growth_pct tenniscore top rest)
    as [Hin Hmax]; [apply reshaped_yoy_present | exact En |].
  rewrite Ep. split; [apply (reshaped_yoy_present sales); exact Hin |].
  split; [exists top; auto | exact Hmax].
Qed.

Lemma peak_growth_is_largest_witness :
  exists s,
    create_summary_stats sample_files = Ok s
    /\ tenniscore_peak_growth s = of_Z 45
    /\ leb (of_Z 30) (tenniscore_peak_growth s) = true.
Proof.
  destruct (create_summary_stats sample_files) as [s | e] eqn:E;
    [| vm_compute in E; discriminate].
  exists s.
  destruct (peak_growth_is_largest sample_files
              [Sales.sample_skirt; Sales.sample_polo; Sales.sample_visor]
              Market.sample_sportswear Market.sample_jersey sample_trends s
              eq_refl eq_refl eq_refl eq_refl E) as (_ & _ & Hmax).
  split; [reflexivity |]. split.
  - vm_compute in E. injection E as <-. reflexivity.
  - apply (Hmax (Sales.long_of Sales.GenZ Sales.sample_polo)).
    vm_compute. auto.
Defined.

(** X11.  When the summary is derived, tenniscore_search_peak is the
    largest tenniscore value present in the trends table: no row holds a
    larger value and some row holds it; when no row holds a value (an empty
    table included) it is NaN, and the derivation does not fail for that. *)
Theorem search_peak_is_largest (self : raw_files)
        (sales : list Sales.raw_row) (sportswear jersey : Market.frame)
        (trends : list trend_row) (s : summary) :
  tenniscore_sales_csv self = Some sales ->
  womens_sportswear_market_csv self = Some sportswear ->
  jersey_market_csv self = Some jersey ->
  google_trends_csv self = Some trends ->
  create_summary_stats self = Ok s ->
  (forall r, In r trends -> is_nan (t_tenniscore r) = false ->
             leb (t_tenniscore r) (tenniscore_search_peak s) = true)
  /\ ((exists r, In r trends /\ is_nan (t_tenniscore r) = false) ->
      is_nan (tenniscore_search_peak s) = false
      /\ exists r, In r trends /\ t_tenniscore r = tenniscore_search_peak s)
  /\ ((forall r, In r trends -> is_nan (t_tenniscore r) = true) ->
      tenniscore_search_peak s = nan).
Proof.
  intros Hs Hw Hj Ht Hok.
  destruct (create_summary_stats_peaks self sales sportswear jersey trends s
              Hs Hw Hj Ht Hok) as (_ & -> & _).
  destruct (max_spec (map t_tenniscore trends)) as [[E M] | [Hin Hmax]].
  - assert (None_present : forall r, In r trends ->
                                     is_nan (t_tenniscore r) = true).
    { intros r Hr. destruct (is_nan (t_tenniscore r)) eqn:N; [reflexivity |].
      assert (K : In (t_tenniscore r) (Series.present (map t_tenniscore trends)))
        by (apply present_In; split; [apply in_map; exact Hr | exact N]).
      rewrite E in K. destruct K. }
    split; [| split].
    + intros r Hr N. rewrite (None_present r Hr) in N. discriminate.
    + intros (r & Hr & N). rewrite (None_present r Hr) in N. discriminate.
    + intros _. exact M.
  - pose proof (proj1 (present_In _ _) Hin) as [Hm Nm].
    split; [| split].
    + intros r Hr N. apply Hmax. apply present_In.
      split; [apply in_map; exact Hr | exact N].
    + intros _. split; [exact Nm |].
      apply in_map_iff in Hm as (r & Er & Hr). exists r. auto.
    + intros All. apply in_map_iff in Hm as (r & Er & Hr).
      rewrite <- Er in Nm. rewrite (All r Hr) in Nm. discriminate.
Qed.

Lemma search_peak_is_largest_witness :
  (exists s,
      create_summary_stats sample_files = Ok s
      /\ tenniscore_search_peak s = of_Z 79)
  /\ (exists s,
        create_summary_stats (with_trends sample_files []) = Ok s
        /\ tenniscore_search_peak s = nan).
Proof.
  split.
  - destruct (create_summary_stats sample_files) as [s | e] eqn:E;
      [| vm_compute in E; discriminate].
    exists s. split; [reflexivity |].
    vm_compute in E. injection E as <-. reflexivity.
  - destruct (create_summary_stats (with_trends sample_files []))
      as [s | e] eqn:E; [| vm_compute in E; discriminate].
    exists s. split; [reflexivity |].
    apply (search_peak_is_largest (with_trends sample_files [])
             [Sales.sample_skirt; Sales.sample_polo; Sales.sample_visor]
             Market.sample_sportswear Market.sample_jersey [] s
             eq_refl eq_refl eq_refl eq_refl E).
    intros r [].
Defined.

(** *** The order of the failures *)



End PeakFacts.

(** ** The grid and the curves of the generator *)

Module GeneratorFacts.

Import Date Collect.

Lemma mapM_map {A B : Type} (f : A -> option B) (g : B -> A)
      (l : list A) (l' : list B) :
  (forall a b, f a = Some b -> g b = a) ->
  mapM f l = Some l' -> map g l' = l.
Proof.
  intros Hg. revert l'; induction l as [| a l IH]; simpl; intros l' H.
  - injection H as <-. reflexivity.
  - apply obind_Some in H as (b & Hb & H).
    apply obind_Some in H as (bs & Hbs & H).
    injection H as <-. simpl. rewrite (Hg a b Hb), (IH bs Hbs). reflexivity.
Qed.

(** The first date of a weekly range is the first Sunday from [start]. *)
Lemma first_sunday (start : date) :
  let first := start + (6 - weekday start) mod 7 in
  start <= first < start + 7 /\ weekday first = 6.
Proof.
  unfold weekday. Z.div_mod_to_equations. lia.
Qed.

Lemma weekly_sorted (first : date) (a n : nat) :
  StronglySorted Z.lt (map (fun k => first + 7 * Z.of_nat k) (seq a n)).
Proof.
  revert a; induction n as [| n IH]; intros a; cbn [map seq]; constructor.
  - apply IH.
  - apply Forall_forall. intros d Hd.
    apply in_map_iff in Hd as (k & <- & Hk). apply in_seq in Hk. lia.
Qed.

(** A weekly range holds exactly the Sundays from [start] to [stop], in
    ascending order. *)
Lemma date_range_W_spec (start stop : date) :
  StronglySorted Z.lt (date_range_W start stop)
  /\ forall d, In d (date_range_W start stop)
               <-> start <= d <= stop /\ weekday d = 6.
Proof.
  unfold date_range_W.
  pose proof (first_sunday start) as F. cbv zeta in F.
  set (first := start + (6 - weekday start) mod 7) in *.
  destruct F as [B W]. clearbody first.
  destruct (first <=? stop) eqn:L.
  - apply Z.leb_le in L. split; [apply weekly_sorted |].
    intros d. rewrite in_map_iff. split.
    + intros (k & <- & Hk). apply in_seq in Hk.
      assert (Z.of_nat k <= (stop - first) / 7).
      { assert (0 <= (stop - first) / 7) by (apply Z.div_pos; lia). lia. }
      unfold weekday in *. Z.div_mod_to_equations. lia.
    + intros [Hd Wd].
      exists (Z.to_nat ((d - first) / 7)).
      unfold weekday in *. rewrite in_seq.
      Z.div_mod_to_equations. split; lia.
  - apply Z.leb_gt in L. split; [constructor |].
    intros d. split; [intros [] |].
    intros [Hd Wd]. exfalso.
    unfold weekday in *. Z.div_mod_to_equations. lia.
Qed.

Lemma generated_rows :
  exists rows, generate_sample_data = Some rows /\ map date_ rows = dates.
Proof.
  pose proof CollectFacts.generated_bounded as B.
  unfold generate_sample_data in *.
  destruct (mapM sample_row dates) as [rows |] eqn:Hm; [| destruct B].
  exists rows. split; [reflexivity |].
  revert Hm. generalize dates. intros ds Hm.
  apply (mapM_map sample_row date_ ds rows); [| exact Hm].
  intros d r H. apply (CollectFacts.sample_row_inv d r H).
Qed.

(** X1.  The generator emits exactly one row for each Sunday from
    2023-01-01 to 2026-02-01, both included, in ascending date order, and
    every row belongs to the category search_trends. *)
Theorem generated_grid_is_the_sundays :
  exists rows,
    generate_sample_data = Some rows
    /\ StronglySorted Z.lt (map date_ rows)
    /\ (forall d, In d (map date_ rows)
                  <-> of_civil 2023 1 1 <= d <= of_civil 2026 2 1
                      /\ weekday d = 6)
    /\ (forall r, In r rows -> category r = "search_trends").
Proof.
  destruct generated_rows as (rows & Hg & Hd).
  exists rows. split; [exact Hg |]. rewrite Hd.
  destruct (date_range_W_spec grid_start grid_end) as [S M].
  split; [exact S |]. split; [exact M |].
  intros r Hr.
  destruct (CollectFacts.generated_from_grid rows r Hg Hr) as [_ Hs].
  unfold sample_row in Hs.
  repeat (apply obind_Some in Hs as (? & _ & Hs)).
  injection Hs as <-. reflexivity.
Qed.

(** Outside the window both columns of the tenniscore pair are at
    their baseline values. *)
Lemma tenniscore_pair_outside (d : date) :
  d < boost_from \/ boost_to < d ->
  Py.int (tenniscore_val d) = Some 20
  /\ Py.int (Py.mul (tenniscore_val d) (PyFloat lit_0_8)) = Some 16.
Proof.
  intros H. rewrite (CollectFacts.tenniscore_val_outside d H).
  split; reflexivity.
Qed.

(** X2.  The tenniscore bump is cut off by its window: on every date
    before 2024-04-01 or after 2024-08-01 tenniscore is 20 and tennis_skirt
    is 16, while on the two end dates of the window the value is still
    above the baseline (77 and 40). *)
Theorem tenniscore_bump_is_windowed :
  (forall d, d < of_civil 2024 4 1 \/ of_civil 2024 8 1 < d ->
             Py.int (tenniscore_val d) = Some 20
             /\ Py.int (Py.mul (tenniscore_val d) (PyFloat lit_0_8)) = Some 16)
  /\ Py.int (tenniscore_val (of_civil 2024 4 1)) = Some 77
  /\ Py.int (tenniscore_val (of_civil 2024 8 1)) = Some 40
  /\ exists rows,
       generate_sample_data = Some rows
       /\ forall r, In r rows ->
            date_ r < of_civil 2024 4 1 \/ of_civil 2024 8 1 < date_ r ->
            tenniscore r = 20 /\ tennis_skirt r = 16.
Proof.
  split; [exact tenniscore_pair_outside |].
  split; [vm_compute; reflexivity |].
  split; [vm_compute; reflexivity |].
  destruct generated_rows as (rows & Hg & _).
  exists rows. split; [exact Hg |].
  intros r Hr H.
  destruct (CollectFacts.generated_from_grid rows r Hg Hr) as [_ Hs].
  pose proof (CollectFacts.sample_row_inv _ _ Hs) as (_ & Ht & Hts & _).
  destruct (tenniscore_pair_outside (date_ r) H) as [E1 E2].
  rewrite E1 in Ht. rewrite E2 in Hts.
  injection Ht as <-. injection Hts as <-. auto.
Qed.

Lemma tenniscore_bump_is_windowed_witness :
  Py.int (tenniscore_val (of_civil 2024 8 2)) = Some 20
  /\ Py.int (Py.mul (tenniscore_val (of_civil 2024 8 2)) (PyFloat lit_0_8))
     = Some 16.
Proof.
  apply (proj1 tenniscore_bump_is_windowed). right. reflexivity.
Defined.

(** Until 365 days before the fixed date the soccer pair is at its
    baseline values. *)
Lemma soccer_pair_before (d : date) :
  365 <= days_to_wc d ->
  Py.int (soccer_val d) = Some 30
  /\ Py.int (Py.mul (soccer_val d) (PyFloat lit_0_7)) = Some 21.
Proof.
  intros H. unfold soccer_val, soccer_boost.
  replace (days_to_wc d <? 365) with false
    by (symmetry; apply Z.ltb_ge; exact H).
  split; reflexivity.
Qed.

(** X3.  The soccer ramp starts 365 days before 2026-06-11: on every date
    up to 2025-06-11 soccer_jersey is 30 and football_kit is 21; at
    2026-06-11 itself the value is 30 + 50 = 80. *)
Theorem soccer_ramp_starts_a_year_ahead :
  (forall d, d <= of_civil 2025 6 11 ->
             Py.int (soccer_val d) = Some 30
             /\ Py.int (Py.mul (soccer_val d) (PyFloat lit_0_7)) = Some 21)
  /\ Py.int (soccer_val (of_civil 2026 6 11)) = Some 80
  /\ exists rows,
       generate_sample_data = Some rows
       /\ forall r, In r rows -> date_ r <= of_civil 2025 6 11 ->
            soccer_jersey r = 30 /\ football_kit r = 21.
Proof.
  assert (B : forall d, d <= of_civil 2025 6 11 -> 365 <= days_to_wc d).
  { intros d H. unfold days_to_wc.
    replace world_cup with (of_civil 2025 6 11 + 365) by reflexivity. lia. }
  split; [intros d H; apply soccer_pair_before, B, H |].
  split; [vm_compute; reflexivity |].
  destruct generated_rows as (rows & Hg & _).
  exists rows. split; [exact Hg |].
  intros r Hr H.
  destruct (CollectFacts.generated_from_grid rows r Hg Hr) as [_ Hs].
  pose proof (CollectFacts.sample_row_inv _ _ Hs) as (_ & _ & _ & Hj & Hk & _).
  destruct (soccer_pair_before (date_ r) (B _ H)) as [E1 E2].
  rewrite E1 in Hj. rewrite E2 in Hk.
  injection Hj as <-. injection Hk as <-. auto.
Qed.

Lemma soccer_ramp_starts_a_year_ahead_witness :
  Py.int (soccer_val (of_civil 2025 6 11)) = Some 30
  /\ Py.int (Py.mul (soccer_val (of_civil 2025 6 11)) (PyFloat lit_0_7))
     = Some 21.
Proof.
  apply (proj1 soccer_ramp_starts_a_year_ahead). reflexivity.
Defined.

End GeneratorFacts.

(** ** The live collection *)

Module CollectorFacts.

Import Date Trends ListFacts.

(** *** One round of the loop *)

Lemma has_label_In (label : string) (cols : list string) :
  has_label label cols = true <-> In label cols.
Proof.
  unfold has_label. rewrite existsb_exists. split.
  - intros (c & Hc & E). apply String.eqb_eq in E. subst. exact Hc.
  - intros H. exists label. split; [exact H | apply String.eqb_refl].
Qed.

Lemma has_label_false (label : string) (cols : list string) :
  has_label label cols = false <-> ~ In label cols.
Proof.
  rewrite <- has_label_In. destruct (has_label label cols); split;
    intros H; try reflexivity; try discriminate; try (intros K; discriminate).
  exfalso. apply H. reflexivity.
Qed.

Lemma prepared_columns (category : string) (f : frame) (c : string) :
  In c (columns (prepared category f))
  <-> c = "category" \/ (In c (columns f) /\ c <> "isPartial").
Proof.
  unfold prepared.
  set (g := if has_label "isPartial" (columns f) then drop "isPartial" f else f).
  assert (G : forall x, In x (columns g)
                       <-> In x (columns f) /\ x <> "isPartial").
  { intros x. unfold g. destruct (has_label "isPartial" (columns f)) eqn:P.
    - simpl. rewrite filter_In, negb_true_iff, String.eqb_neq. tauto.
    - apply has_label_false in P. split; [| tauto].
      intros H. split; [exact H |]. intros ->. contradiction. }
  unfold setitem. destruct (has_label "category" (columns g)) eqn:C.
  - simpl. rewrite G. apply has_label_In in C. apply G in C.
    split; [tauto |]. intros [-> | H]; tauto.
  - simpl. rewrite in_app_iff, G. simpl. intuition.
Qed.


Lemma prepared_has_date (category : string) (f : frame) :
  has_label "date" (columns (prepared category f))
  = has_label "date" (columns f).
Proof.
  destruct (has_label "date" (columns f)) eqn:D.
  - apply has_label_In. apply prepared_columns. right.
    apply has_label_In in D. split; [exact D | discriminate].
  - apply has_label_false. apply has_label_false in D.
    intros H. apply prepared_columns in H as [H | [H _]];
      [discriminate | contradiction].
Qed.

Lemma attempt_spec (service : list string -> response)
      (kw : string * list string) (st : state) :
  attempt service (fst kw) (snd kw) st
  = mkState (all_data st ++ gathered service kw)
            (slept st + if pauses service kw then 2 else 0).
Proof.
  unfold attempt, gathered, pauses, usable.
  destruct (service (snd kw)) as [| f].
  - rewrite app_nil_r, Z.add_0_r. destruct st; reflexivity.
  - destruct (empty f) eqn:E; cbn [negb andb orb].
    + rewrite app_nil_r. reflexivity.
    + fold (prepared (fst kw) f). unfold reset_index.
      rewrite prepared_has_date.
      destruct (has_label "date" (columns f)); cbn [negb].
      * rewrite app_nil_r, Z.add_0_r. destruct st; reflexivity.
      * reflexivity.
Qed.

Lemma rounds_spec (service : list string -> response)
      (kws : list (string * list string)) (st : state) :
  fold_left (fun st kw => attempt service (fst kw) (snd kw) st) kws st
  = mkState (all_data st ++ flat_map (gathered service) kws)
            (slept st + 2 * Z.of_nat (List.length (filter (pauses service) kws))).
Proof.
  revert st; induction kws as [| kw kws IH]; intros st; cbn [fold_left].
  - cbn. rewrite app_nil_r, Z.add_0_r. destruct st; reflexivity.
  - rewrite IH, attempt_spec. cbn [all_data slept flat_map filter].
    rewrite <- app_assoc. f_equal.
    destruct (pauses service kw); cbn [List.length]; lia.
Qed.

Lemma collect_spec (service : list string -> response) :
  collect_trends_data (Some service)
  = let slept := 2 * Z.of_nat (List.length (filter (pauses service) keywords)) in
    match flat_map (gathered service) keywords with
    | [] => Returned (mkCollected None None slept)
    | f :: fs =>
        Returned (mkCollected (Some (concat (f :: fs)))
                              (Some (concat (f :: fs))) slept)
    end.
Proof.
  unfold collect_trends_data. rewrite rounds_spec.
  cbn [all_data slept app]. rewrite Z.add_0_l. cbv zeta.
  destruct (flat_map (gathered service) keywords); reflexivity.
Qed.

(** *** The rows collected *)



Lemma usable_has_rows (f : frame) : usable f = true -> rows f <> [].
Proof.
  unfold usable, empty. intros H. apply andb_true_iff in H as [H _].
  destruct (columns f), (rows f); try discriminate; discriminate.
Qed.

Lemma gathered_nil (service : list string -> response)
      (kws : list (string * list string)) :
  flat_map (gathered service) kws = []
  <-> forall kw, In kw kws ->
        service (snd kw) = Raises
        \/ exists f, service (snd kw) = Responds f /\ usable f = false.
Proof.
  induction kws as [| kw kws IH]; cbn [flat_map].
  - split; [intros _ kw [] | reflexivity].
  - split.
    + intros H. apply app_eq_nil in H as [H1 H2].
      intros kw' [<- | Hk]; [| apply IH; assumption].
      unfold gathered in H1. destruct (service (snd kw)) as [| f]; [auto |].
      right. exists f. split; [reflexivity |].
      destruct (usable f); [discriminate | reflexivity].
    + intros H. rewrite (proj2 IH) by (intros; apply H; right; assumption).
      rewrite app_nil_r. unfold gathered.
      destruct (H kw (or_introl eq_refl)) as [-> | (f & -> & ->)]; reflexivity.
Qed.



(** X5.  The collection returns no frame exactly when every group's
    request raised or returned a frame that is empty (or that cannot take
    the date column); the file is written exactly when a frame is
    returned, and holds that frame. *)
Theorem nothing_collected_iff (service : list string -> response) :
  exists c,
    collect_trends_data (Some service) = Returned c
    /\ google_trends_csv c = returned c
    /\ (returned c = None
        <-> forall kw, In kw keywords ->
              service (snd kw) = Raises
              \/ exists f, service (snd kw) = Responds f
                           /\ usable f = false).
Proof.
  rewrite collect_spec. cbv zeta.
  destruct (flat_map (gathered service) keywords) as [| f fs] eqn:E.
  - eexists. split; [reflexivity |]. split; [reflexivity |].
    cbn [returned]. split; [| reflexivity].
    intros _. apply gathered_nil. exact E.
  - eexists. split; [reflexivity |]. split; [reflexivity |].
    cbn [returned]. split; [discriminate |].
    intros H. apply gathered_nil in H. congruence.
Qed.

(** *** The category column *)

Lemma first_seen_In (seen labels : list string) (c : string) :
  In c (first_seen seen labels) <-> In c labels /\ ~ In c seen.
Proof.
  revert seen; induction labels as [| x labels IH]; intros seen;
    cbn [first_seen].
  - simpl. tauto.
  - destruct (has_label x seen) eqn:S.
    + apply has_label_In in S. rewrite IH. simpl.
      split; [tauto |]. intros [[<- | H] N]; [contradiction | tauto].
    + apply has_label_false in S. simpl. rewrite IH. simpl.
      destruct (string_dec x c) as [<- | D]; [tauto |].
      split; [tauto |]. intros [[E | H] N]; [contradiction |].
      right. split; [exact H |]. intros [E | K]; contradiction.
Qed.

Lemma getitem_reindex (label : string) (to cols : list string)
      (cells : list Market.cell) :
  In label to ->
  Market.getitem label to (reindex to cols cells)
  = Ok (match Market.getitem label cols cells with
        | Ok v => v
        | Error _ => Market.Null
        end).
Proof.
  unfold reindex.
  induction to as [| c to IH]; intros H; [destruct H |].
  cbn [map Market.getitem].
  destruct (String.eqb label c) eqn:E.
  - apply String.eqb_eq in E. subst. reflexivity.
  - apply IH. destruct H as [-> | H]; [| exact H].
    rewrite String.eqb_refl in E. discriminate.
Qed.

Lemma drop_cells_length (label : string) (cols : list string)
      (cells : list Market.cell) :
  List.length cells = List.length cols ->
  List.length (drop_cells label cols cells)
  = List.length (filter (fun c => negb (String.eqb c label)) cols).
Proof.
  revert cells; induction cols as [| c cols IH]; intros [| v cells] L;
    try discriminate; [reflexivity |].
  cbn [drop_cells filter]. injection L as L.
  destruct (String.eqb c label); cbn [negb List.length]; auto.
Qed.

Lemma getitem_set_cells (label : string) (v : Market.cell)
      (cols : list string) (cells : list Market.cell) :
  List.length cells = List.length cols -> In label cols ->
  Market.getitem label cols (set_cells label v cols cells) = Ok v.
Proof.
  revert cells; induction cols as [| c cols IH]; intros [| x cells] L H;
    try discriminate; [destruct H |].
  cbn [set_cells Market.getitem]. injection L as L.
  rewrite (String.eqb_sym label c).
  destruct (String.eqb c label) eqn:E; [reflexivity |].
  apply IH; [exact L |].
  destruct H as [-> | H]; [| exact H].
  rewrite String.eqb_refl in E. discriminate.
Qed.

Lemma setitem_reads (label : string) (v : Market.cell) (f : frame)
      (r : date * list Market.cell) :
  rectangular f -> In r (rows (setitem label v f)) ->
  Market.getitem label (columns (setitem label v f)) (snd r) = Ok v
  /\ exists r0, In r0 (rows f) /\ fst r0 = fst r.
Proof.
  intros R H. unfold rectangular in R. rewrite Forall_forall in R.
  unfold setitem in *. destruct (has_label label (columns f)) eqn:C;
    cbn [rows columns] in *; apply in_map_iff in H as (r0 & <- & H0);
    cbn [fst snd]; (split; [| exists r0; auto]).
  - apply getitem_set_cells; [apply R; exact H0 |].
    apply has_label_In. exact C.
  - apply has_label_false in C.
    rewrite (MarketFacts.getitem_app_right label _ _ _ _ C (R r0 H0)).
    cbn. rewrite String.eqb_refl. reflexivity.
Qed.

Lemma drop_rectangular (label : string) (f : frame) :
  rectangular f -> rectangular (drop label f).
Proof.
  unfold rectangular. rewrite !Forall_forall. intros R r H.
  cbn [drop rows columns] in *. apply in_map_iff in H as (r0 & <- & H0).
  cbn [snd]. apply drop_cells_length. apply R. exact H0.
Qed.

Lemma prepared_reads (category : string) (f : frame)
      (r : date * list Market.cell) :
  rectangular f -> In r (rows (prepared category f)) ->
  Market.getitem "category" (columns (prepared category f)) (snd r)
  = Ok (Market.Text category)
  /\ In (fst r) (map fst (rows f)).
Proof.
  intros R H. unfold prepared in *.
  destruct (has_label "isPartial" (columns f)).
  - destruct (setitem_reads _ _ _ r (drop_rectangular "isPartial" f R) H)
      as [G (r0 & H0 & E)].
    split; [exact G |]. rewrite <- E.
    cbn [drop rows] in H0. apply in_map_iff in H0 as (r1 & <- & H1).
    cbn [fst]. apply in_map. exact H1.
  - destruct (setitem_reads _ _ _ r R H) as [G (r0 & H0 & E)].
    split; [exact G |]. rewrite <- E. apply in_map. exact H0.
Qed.

Lemma gathered_In (service : list string -> response)
      (kws : list (string * list string)) (g : frame) :
  In g (flat_map (gathered service) kws) ->
  exists kw f, In kw kws /\ service (snd kw) = Responds f
               /\ usable f = true /\ g = prepared (fst kw) f.
Proof.
  intros H. apply in_flat_map in H as (kw & Hk & H).
  unfold gathered in H. destruct (service (snd kw)) as [| f] eqn:E;
    [destruct H |].
  destruct (usable f) eqn:U; [| destruct H].
  destruct H as [<- | []]. exists kw, f. auto.
Qed.

Lemma concat_columns (fs : list frame) (c : string) :
  In c (columns (concat fs)) <-> exists f, In f fs /\ In c (columns f).
Proof.
  unfold concat. cbn [columns]. rewrite first_seen_In, in_flat_map.
  simpl. tauto.
Qed.

(** X6.  When every frame of the service is rectangular, each row of
    the frame collected comes from the response of one group, at one of
    its dates, and reads that group's name under the label category; the
    frame has no column labelled isPartial. *)
Theorem collected_rows_are_tagged (service : list string -> response)
        (c : collected) (df : frame) :
  (forall terms f, service terms = Responds f -> rectangular f) ->
  collect_trends_data (Some service) = Returned c ->
  returned c = Some df ->
  ~ In "isPartial" (columns df)
  /\ forall row, In row (rows df) ->
       exists kw f,
         In kw keywords
         /\ service (snd kw) = Responds f
         /\ In (fst row) (map fst (rows f))
         /\ Market.getitem "category" (columns df) (snd row)
            = Ok (Market.Text (fst kw)).
Proof.
  intros R. rewrite collect_spec. cbv zeta.
  destruct (flat_map (gathered service) keywords) as [| g gs] eqn:E;
    intros H; injection H as <-; cbn [returned]; [discriminate |].
  intros H; injection H as <-. rewrite <- E. clear E g gs.
  set (fs := flat_map (gathered service) keywords).
  split.
  - intros H. apply concat_columns in H as (g & Hg & H).
    apply gathered_In in Hg as (kw & f & _ & _ & _ & ->).
    apply prepared_columns in H as [H | [_ H]]; [discriminate | congruence].
  - intros row H. unfold concat in H. cbn [rows] in H.
    apply in_flat_map in H as (g & Hg & H).
    apply in_map_iff in H as (r & <- & Hr).
    pose proof Hg as Hg'.
    apply gathered_In in Hg' as (kw & f & Hk & Es & U & ->).
    destruct (prepared_reads (fst kw) f r (R _ _ Es) Hr) as [G D].
    exists kw, f. split; [exact Hk |]. split; [exact Es |].
    split; [exact D |]. cbn [fst snd].
    fold (columns (concat fs)).
    rewrite getitem_reindex.
    + rewrite G. reflexivity.
    + apply first_seen_In. split; [| intros []].
      apply in_flat_map. exists (prepared (fst kw) f).
      split; [exact Hg |]. apply prepared_columns. left. reflexivity.
Qed.

Lemma sample_interest_rectangular (terms : list string) :
  rectangular (sample_interest terms).
Proof.
  unfold rectangular, sample_interest. cbn [rows columns].
  repeat constructor; cbn [snd]; rewrite !length_app, !length_map; reflexivity.
Qed.

Lemma service_no_soccer_rectangular (terms : list string) (f : frame) :
  service_no_soccer terms = Responds f -> rectangular f.
Proof.
  unfold service_no_soccer.
  destruct (has_label "soccer jersey" terms); [discriminate |].
  intros H; injection H as <-. apply sample_interest_rectangular.
Qed.

Lemma collected_rows_are_tagged_witness :
  exists c df,
    collect_trends_data (Some service_no_soccer) = Returned c
    /\ returned c = Some df
    /\ ~ In "isPartial" (columns df)
    /\ List.length (rows df) = 4%nat.
Proof.
  destruct (collect_trends_data (Some service_no_soccer)) as [c |] eqn:E;
    [| vm_compute in E; discriminate].
  destruct (returned c) as [df |] eqn:Er;
    [| vm_compute in E; injection E as <-; discriminate].
  exists c, df. split; [reflexivity |]. split; [exact Er |].
  split.
  - apply (collected_rows_are_tagged service_no_soccer c df
             service_no_soccer_rectangular E Er).
  - vm_compute in E. injection E as <-. cbn in Er. injection Er as <-.
    reflexivity.
Defined.

(** *** The pauses *)

(** X7.  The collection sleeps two seconds after each request that
    returned, whether its frame was gathered or empty, and not after a
    request that raised: six seconds when every request returns, none when
    every request raises. *)
Theorem pauses_follow_returned_requests (service : list string -> response) :
  exists c,
    collect_trends_data (Some service) = Returned c
    /\ seconds_slept c
       = 2 * Z.of_nat (List.length (filter (pauses service) keywords))
    /\ 0 <= seconds_slept c <= 6
    /\ ((forall kw, In kw keywords -> service (snd kw) = Raises) ->
        seconds_slept c = 0)
    /\ ((forall kw, In kw keywords ->
           exists f, service (snd kw) = Responds f
                     /\ ~ In "date" (columns f)) ->
        seconds_slept c = 6).
Proof.
  assert (L : (List.length (filter (pauses service) keywords) <= 3)%nat)
    by apply (filter_length_le (pauses service) keywords).
  rewrite collect_spec. cbv zeta.
  assert (S : forall c,
             seconds_slept c
             = 2 * Z.of_nat (List.length (filter (pauses service) keywords)) ->
             seconds_slept c
             = 2 * Z.of_nat (List.length (filter (pauses service) keywords))
             /\ 0 <= seconds_slept c <= 6
             /\ ((forall kw, In kw keywords -> service (snd kw) = Raises) ->
                 seconds_slept c = 0)
             /\ ((forall kw, In kw keywords ->
                    exists f, service (snd kw) = Responds f
                              /\ ~ In "date" (columns f)) ->
                 seconds_slept c = 6)).
  { intros c ->. split; [reflexivity |]. split; [lia |]. split.
    - intros H. rewrite filter_none; [reflexivity |].
      apply forallb_forall. intros kw Hk. unfold pauses.
      rewrite (H kw Hk). reflexivity.
    - intros H. rewrite filter_all; [reflexivity |].
      apply forallb_forall. intros kw Hk. unfold pauses.
      destruct (H kw Hk) as (f & -> & D).
      apply has_label_false in D. rewrite D. apply orb_true_r. }
  destruct (flat_map (gathered service) keywords);
    eexists; (split; [reflexivity |]); apply S; reflexivity.
Qed.

(** *** The script's entry *)



(** *** The labels *)

(** X9.  When the service labels the columns of a frame with the terms
    requested (and isPartial), every label of the frame collected is one
    of the terms of the keywords or category: the frame has no column
    tennis_skirt, soccer_jersey, football_kit or womens_activewear, the
    labels of the sample data. *)
Theorem collected_labels_are_terms (service : list string -> response)
        (c : collected) (df : frame) :
  (forall terms f, service terms = Responds f ->
     forall x, In x (columns f) -> In x terms \/ x = "isPartial") ->
  collect_trends_data (Some service) = Returned c ->
  returned c = Some df ->
  (forall x, In x (columns df) ->
     x = "category" \/ exists kw, In kw keywords /\ In x (snd kw))
  /\ ~ In "tennis_skirt" (columns df)
  /\ ~ In "soccer_jersey" (columns df)
  /\ ~ In "football_kit" (columns df)
  /\ ~ In "womens_activewear" (columns df).
Proof.
  intros T. rewrite collect_spec. cbv zeta.
  destruct (flat_map (gathered service) keywords) as [| g gs] eqn:E;
    intros H; injection H as <-; cbn [returned]; [discriminate |].
  intros H; injection H as <-. rewrite <- E. clear E g gs.
  assert (A : forall x,
             In x (columns (concat (flat_map (gathered service) keywords))) ->
             x = "category" \/ exists kw, In kw keywords /\ In x (snd kw)).
  { intros x H. apply concat_columns in H as (g & Hg & H).
    apply gathered_In in Hg as (kw & f & Hk & Es & _ & ->).
    apply prepared_columns in H as [H | [H N]]; [left; exact H |].
    right. exists kw. split; [exact Hk |].
    destruct (T _ _ Es x H) as [K | K]; [exact K | contradiction]. }
  split; [exact A |].
  assert (B : forall x,
             (x = "category" \/ exists kw, In kw keywords /\ In x (snd kw)) ->
             In x ("category" :: flat_map snd keywords)).
  { intros x [-> | (kw & Hk & Hx)]; [left; reflexivity |].
    right. apply in_flat_map. exists kw. auto. }
  repeat split; intros H; apply A, B in H; vm_compute in H;
    intuition discriminate.
Qed.

Lemma service_up_labels (terms : list string) (f : frame) :
  service_up terms = Responds f ->
  forall x, In x (columns f) -> In x terms \/ x = "isPartial".
Proof.
  intros H; injection H as <-. intros x Hx. cbn [sample_interest columns] in Hx.
  apply in_app_iff in Hx as [Hx | [<- | []]]; auto.
Qed.

Lemma collected_labels_are_terms_witness :
  exists c df,
    collect_trends_data (Some service_up) = Returned c
    /\ returned c = Some df
    /\ ~ In "soccer_jersey" (columns df)
    /\ In "soccer jersey" (columns df).
Proof.
  destruct (collect_trends_data (Some service_up)) as [c |] eqn:E;
    [| vm_compute in E; discriminate].
  destruct (returned c) as [df |] eqn:Er;
    [| vm_compute in E; injection E as <-; discriminate].
  exists c, df. split; [reflexivity |]. split; [exact Er |].
  split.
  - apply (collected_labels_are_terms service_up c df service_up_labels E Er).
  - vm_compute in E. injection E as <-. cbn in Er. injection Er as <-.
    vm_compute. auto 10.
Defined.

End CollectorFacts.

(** ** The rows of the reshaper *)

Module ReshaperFacts.

Import Sales ListFacts.

Lemma block_In (c : demo_col) (df : list raw_row) (l : long_row) :
  In l (block c df)
  <-> exists r, In r df /\ l = long_of c r /\ has_na l = false.
Proof.
  unfold block. rewrite filter_In, in_map_iff, negb_true_iff. split.
  - intros [(r & <- & Hr) N]. exists r. auto.
  - intros (r & Hr & -> & N). split; [exists r; auto | exact N].
Qed.

(** X12.  An output row of the reshaper is exactly the row of one
    input row and one demographic column that holds no missing value: it
    carries the input row's category, item and yoy_growth_pct, one of the
    four labels gen_z, millennial, gen_x, baby_boomer, and the value of
    that column.  The output has at most 4 rows per input row, and none for
    an empty table. *)
Theorem reshaped_rows_are_cells (df : list raw_row) :
  (forall l, In l (load_tenniscore_sales df)
             <-> exists r c, In r df /\ l = long_of c r /\ has_na l = false)
  /\ (forall l, In l (load_tenniscore_sales df) ->
        In (demographic l) ["gen_z"; "millennial"; "gen_x"; "baby_boomer"])
  /\ (List.length (load_tenniscore_sales df) <= 4 * List.length df)%nat
  /\ load_tenniscore_sales [] = [].
Proof.
  assert (M : forall l, In l (load_tenniscore_sales df)
                        <-> exists r c, In r df /\ l = long_of c r
                                        /\ has_na l = false).
  { intros l. rewrite SalesFacts.load_blocks, !in_app_iff, !block_In. split.
    - intros [H | [H | [H | H]]]; destruct H as (r & Hr & E & N);
        exists r; eexists; eauto.
    - intros (r & c & Hr & E & N).
      destruct c; [left | right; left | right; right; left | right; right; right];
        exists r; auto. }
  split; [exact M |]. split; [| split; [| reflexivity]].
  - intros l H. apply M in H as (r & c & _ & -> & _).
    destruct c; simpl; auto.
  - pose proof (filter_split_length has_na (clean_names (melt demo_cols df))) as H.
    rewrite SalesFacts.melted_length in H.
    unfold load_tenniscore_sales, dropna. lia.
Qed.

End ReshaperFacts.

(** ** What the merge keeps *)

Module MergeFacts.

Import Market ListFacts MarketFacts.

Lemma cells_of_unique (f : frame) (y : Z) (a : list cell) :
  NoDup (years f) -> In (y, a) (rows f) -> cells_of y f = Some a.
Proof.
  intros N H. pose proof (unique_year (rows f) y N) as U.
  assert (W : In (y, a) (with_year y f))
    by (apply with_year_In; split; [exact H | reflexivity]).
  unfold cells_of. fold (with_year y f) in U.
  destruct (with_year y f) as [| row [| row' rest]]; simpl in U.
  - destruct W.
  - destruct W as [-> | []]. reflexivity.
  - lia.
Qed.

Lemma merged_row_of_year (l r : frame) (y : Z) :
  NoDup (years l) -> NoDup (years r) ->
  In y (years l) \/ In y (years r) ->
  In (y, side l y ++ side r y) (rows (merge_outer l r)).
Proof.
  intros Nl Nr H. rewrite (merged_rows l r Nl Nr).
  apply in_map_iff. exists y. split; [reflexivity |].
  apply join_keys_In. exact H.
Qed.

(** X13.  Merging two yearly tables without duplicate years loses no
    row and alters no value: each row of the left table is found under its
    year with its cells first, each row of the right table with its cells
    after the left table's columns; a year both tables have gives one row
    with the cells of both. *)
Theorem merge_keeps_every_row (l r : frame) :
  well_formed l ->
  NoDup (years l) -> NoDup (years r) ->
  let m := merge_outer l r in
  (forall y a, In (y, a) (rows l) ->
     exists cells, In (y, cells) (rows m) /\ firstn (width l) cells = a)
  /\ (forall y b, In (y, b) (rows r) ->
        exists cells, In (y, cells) (rows m) /\ skipn (width l) cells = b)
  /\ (forall y a b, In (y, a) (rows l) -> In (y, b) (rows r) ->
        In (y, a ++ b) (rows m)).
Proof.
  intros Wl Nl Nr m. unfold m; clear m.
  assert (Yl : forall y a, In (y, a) (rows l) -> In y (years l)).
  { intros y a H. apply in_map_iff. exists (y, a). auto. }
  assert (Yr : forall y b, In (y, b) (rows r) -> In y (years r)).
  { intros y b H. apply in_map_iff. exists (y, b). auto. }
  split; [| split].
  - intros y a H. exists (side l y ++ side r y).
    split; [apply merged_row_of_year; eauto |].
    unfold side at 1. rewrite (cells_of_unique l y a Nl H).
    rewrite <- (row_width l y a Wl H).
    rewrite firstn_app, Nat.sub_diag, firstn_all. cbn. apply app_nil_r.
  - intros y b H. exists (side l y ++ side r y).
    split; [apply merged_row_of_year; eauto |].
    unfold side at 2. rewrite (cells_of_unique r y b Nr H).
    rewrite <- (side_width l y Wl).
    rewrite skipn_app, Nat.sub_diag, skipn_all. reflexivity.
  - intros y a b Ha Hb.
    pose proof (merged_row_of_year l r y Nl Nr (or_introl (Yl y a Ha))) as H.
    unfold side in H.
    rewrite (cells_of_unique l y a Nl Ha), (cells_of_unique r y b Nr Hb) in H.
    exact H.
Qed.

Lemma merge_keeps_every_row_witness :
  In (2024, [Num (of_Z 214); Text "historical"; Num (of_Z 7)])
     (rows (merge_outer sample_sportswear sample_jersey)).
Proof.
  apply (proj2 (proj2 (merge_keeps_every_row sample_sportswear sample_jersey
                         ltac:(written_out) ltac:(written_out)
                         ltac:(written_out)))
           2024 [Num (of_Z 214); Text "historical"] [Num (of_Z 7)]).
  - simpl. auto.
  - simpl. auto.
Defined.

(** *** Tables with repeated years *)

Lemma join_key_rows (l r : frame) (k : Z) (row : Z * list cell) :
  well_formed l -> well_formed r ->
  In row (join_key l r k) ->
  fst row = k /\ List.length (snd row) = (width l + width r)%nat.
Proof.
  intros Wl Wr H. unfold well_formed in *.
  rewrite Forall_forall in Wl, Wr.
  assert (Ll : forall a, In a (with_year k l) ->
                         List.length (snd a) = width l).
  { intros a Ha. apply Wl. apply with_year_In in Ha. tauto. }
  assert (Lr : forall b, In b (with_year k r) ->
                         List.length (snd b) = width r).
  { intros b Hb. apply Wr. apply with_year_In in Hb. tauto. }
  unfold join_key in H.
  destruct (with_year k l) as [| a0 ls] eqn:El.
  - apply in_map_iff in H as (b & <- & Hb). cbn [fst snd].
    split; [reflexivity |].
    rewrite length_app. unfold nulls. rewrite repeat_length, (Lr b Hb).
    reflexivity.
  - destruct (with_year k r) as [| b0 rs] eqn:Er.
    + apply in_map_iff in H as (a & <- & Ha). cbn [fst snd].
      split; [reflexivity |].
      rewrite length_app. unfold nulls. rewrite repeat_length, (Ll a Ha).
      reflexivity.
    + apply in_flat_map in H as (a & Ha & H).
      apply in_map_iff in H as (b & <- & Hb). cbn [fst snd].
      split; [reflexivity |].
      rewrite length_app, (Ll a Ha), (Lr b Hb). reflexivity.
Qed.

Lemma sorted_blocks (g : Z -> list (Z * list cell)) (ks : list Z) :
  (forall k row, In row (g k) -> fst row = k) ->
  StronglySorted Z.lt ks ->
  StronglySorted Z.le (map fst (flat_map g ks)).
Proof.
  intros G S. induction S as [| k ks S IH F]; cbn [flat_map map];
    [constructor |].
  rewrite map_app.
  assert (B : Forall (fun y => k <= y) (map fst (flat_map g ks))).
  { apply Forall_forall. intros y Hy.
    apply in_map_iff in Hy as (row & <- & Hr).
    apply in_flat_map in Hr as (k' & Hk & Hr).
    rewrite (G k' row Hr). rewrite Forall_forall in F.
    specialize (F k' Hk). lia. }
  assert (K : forall row, In row (g k) -> fst row = k) by (apply G).
  induction (g k) as [| row rows IHr]; cbn [map app]; [exact IH |].
  constructor.
  - apply IHr. intros row' H. apply K. right. exact H.
  - apply Forall_app. split.
    + apply Forall_forall. intros y Hy.
      apply in_map_iff in Hy as (row' & <- & Hr).
      rewrite (K row (or_introl eq_refl)), (K row' (or_intror Hr)). lia.
    + rewrite (K row (or_introl eq_refl)). exact B.
Qed.

(** X14.  Whatever years repeat in them, the merge of two tables whose
    rows have one cell per column is again such a table, with the columns
    of both, and its rows are in ascending order of year. *)
Theorem merge_is_rectangular_and_sorted (l r : frame) :
  well_formed l -> well_formed r ->
  well_formed (merge_outer l r)
  /\ width (merge_outer l r) = (width l + width r)%nat
  /\ StronglySorted Z.le (years (merge_outer l r)).
Proof.
  intros Wl Wr.
  assert (Wd : width (merge_outer l r) = (width l + width r)%nat).
  { unfold width. cbn [merge_outer columns]. unfold merged_columns.
    rewrite length_app, !length_map. reflexivity. }
  split; [| split; [exact Wd |]].
  - unfold well_formed. apply Forall_forall. intros row H.
    cbn [merge_outer rows] in H. apply in_flat_map in H as (k & _ & H).
    rewrite Wd. apply (join_key_rows l r k row Wl Wr H).
  - unfold years. cbn [merge_outer rows].
    apply sorted_blocks; [| apply join_keys_sorted].
    intros k row H. apply (join_key_rows l r k row Wl Wr H).
Qed.

Lemma merge_is_rectangular_and_sorted_witness :
  years (merge_outer sample_sportswear sample_sportswear_to_2024)
  = [2023; 2024; 2033]
  /\ StronglySorted Z.le
       (years (merge_outer sample_sportswear sample_sportswear_to_2024)).
Proof.
  split; [reflexivity |].
  apply (merge_is_rectangular_and_sorted sample_sportswear
           sample_sportswear_to_2024); written_out.
Defined.

Lemma join_key_fst (l r : frame) (k : Z) (row : Z * list cell) :
  In row (join_key l r k) -> fst row = k.
Proof.
  unfold join_key. intros H.
  destruct (with_year k l) as [| a0 ls].
  - apply in_map_iff in H as (b & <- & _). reflexivity.
  - destruct (with_year k r) as [| b0 rs].
    + apply in_map_iff in H as (a & <- & _). reflexivity.
    + apply in_flat_map in H as (a & _ & H).
      apply in_map_iff in H as (b & <- & _). reflexivity.
Qed.

Lemma join_key_absent (l r : frame) (k : Z) :
  ~ In k (join_keys l r) -> join_key l r k = [].
Proof.
  intros H. rewrite join_keys_In in H.
  assert (Hl : cells_of k l = None) by (apply cells_of_None; tauto).
  assert (Hr : cells_of k r = None) by (apply cells_of_None; tauto).
  unfold cells_of in Hl, Hr. unfold join_key.
  destruct (with_year k l); [| discriminate].
  destruct (with_year k r); [reflexivity | discriminate].
Qed.

Lemma rows_of_year (g : Z -> list (Z * list cell)) (ks : list Z) (k : Z) :
  (forall k' row, In row (g k') -> fst row = k') ->
  NoDup ks ->
  filter (fun row => fst row =? k) (flat_map g ks)
  = if in_dec Z.eq_dec k ks then g k else [].
Proof.
  intros G N. induction N as [| k' ks Hk N IH]; cbn [flat_map];
    [reflexivity |].
  rewrite filter_app, IH.
  destruct (Z.eq_dec k' k) as [-> | D].
  - rewrite filter_all
      by (apply forallb_forall; intros row H; apply Z.eqb_eq, (G k row H)).
    destruct (in_dec Z.eq_dec k ks) as [I | _]; [contradiction |].
    destruct (in_dec Z.eq_dec k (k :: ks)) as [_ | I];
      [apply app_nil_r | exfalso; apply I; left; reflexivity].
  - rewrite filter_none
      by (apply forallb_forall; intros row H; apply negb_true_iff, Z.eqb_neq;
          rewrite (G k' row H); exact D).
    cbn [app].
    destruct (in_dec Z.eq_dec k ks) as [I | I];
      destruct (in_dec Z.eq_dec k (k' :: ks)) as [J | J];
      try reflexivity.
    + exfalso. apply J. right. exact I.
    + exfalso. destruct J as [J | J]; [exact (D J) | exact (I J)].
Qed.

Lemma merged_rows_of_year (l r : frame) (k : Z) :
  with_year k (merge_outer l r) = join_key l r k.
Proof.
  unfold with_year at 1. cbn [merge_outer rows].
  rewrite (rows_of_year (join_key l r) (join_keys l r) k).
  - destruct (in_dec Z.eq_dec k (join_keys l r)) as [_ | H]; [reflexivity |].
    symmetry. apply join_key_absent. exact H.
  - intros k' row H. apply (join_key_fst l r k' row H).
  - apply sorted_NoDup, join_keys_sorted.
Qed.

Lemma product_length {A B C : Type} (f : A -> B -> C) (ls : list A)
      (rs : list B) :
  List.length (flat_map (fun a => map (f a) rs) ls)
  = (List.length ls * List.length rs)%nat.
Proof.
  induction ls as [| a ls IH]; cbn [flat_map]; [reflexivity |].
  rewrite length_app, length_map, IH. reflexivity.
Qed.

(** X15.  Years that repeat within a table are not merged away: for a
    year with n rows in the left table and m rows in the right one the
    merged table has n times m rows, one per pair, and the n or m rows of
    the one table when the other has none. *)
Theorem merge_pairs_repeated_years (l r : frame) (k : Z) :
  let n := List.length (with_year k l) in
  let m := List.length (with_year k r) in
  List.length (with_year k (merge_outer l r))
  = match n, m with
    | O, _ => m
    | _, O => n
    | _, _ => (n * m)%nat
    end.
Proof.
  cbv zeta. rewrite merged_rows_of_year. unfold join_key.
  destruct (with_year k l) as [| a ls].
  - rewrite length_map. reflexivity.
  - destruct (with_year k r) as [| b rs].
    + rewrite length_map. reflexivity.
    + apply (product_length (fun a b => (k, snd a ++ snd b))).
Qed.

End MergeFacts.

(** ** The traces of the market tab *)

Module DashboardFacts.

Import Market Dashboard ListFacts MarketFacts.

Lemma select_filter {A B : Type} (p : B -> bool) (cell_of : A -> B)
      (l : list A) :
  select (map p (map cell_of l)) l = filter (fun a => p (cell_of a)) l.
Proof.
  unfold select. induction l as [| a l IH]; cbn [map combine filter];
    [reflexivity |].
  cbn [fst]. destruct (p (cell_of a)); cbn [map snd]; rewrite IH; reflexivity.
Qed.

Lemma filter_partition {A : Type} (p : A -> bool) (l : list A) :
  Permutation (filter (fun a => negb (p a)) l ++ filter p l) l.
Proof.
  induction l as [| a l IH]; cbn [filter]; [constructor |].
  destruct (p a); cbn [negb app].
  - apply Permutation_sym, Permutation_cons_app, Permutation_sym, IH.
  - constructor. exact IH.
Qed.

Lemma is_forecast_true (v : cell) :
  is_forecast v = true <-> v = Text "forecast".
Proof.
  destruct v as [| x | s]; simpl; split; intros H; try discriminate.
  - apply String.eqb_eq in H. subst. reflexivity.
  - injection H as ->. reflexivity.
Qed.

Lemma column_present (label : string) (market : frame) :
  In label (columns market) ->
  column label market = Ok (map (cell_under label market) (rows market)).
Proof.
  intros H. unfold column.
  replace (existsb (String.eqb label) (columns market)) with true;
    [reflexivity |].
  symmetry. apply existsb_exists. exists label.
  split; [exact H | apply String.eqb_refl].
Qed.

Lemma column_absent (label : string) (market : frame) :
  ~ In label (columns market) ->
  column label market = Error (KeyError label).
Proof.
  intros H. unfold column.
  destruct (existsb (String.eqb label) (columns market)) eqn:E;
    [| reflexivity].
  apply existsb_exists in E as (c & Hc & E).
  apply String.eqb_eq in E. subst. contradiction.
Qed.

Lemma traces (market : frame) :
  In "segment" (columns market) ->
  historical market
  = Ok (filter (fun row => negb (is_forecast (cell_under "segment" market row)))
               (rows market))
  /\ forecast market
     = Ok (filter (fun row => is_forecast (cell_under "segment" market row))
                  (rows market)).
Proof.
  intros H. unfold historical, forecast.
  rewrite (column_present "segment" market H). cbn [rbind].
  rewrite !select_filter. split; reflexivity.
Qed.

(** X16.  The two traces of the market chart split the rows of the
    market table between them: with a segment column every row is in
    exactly one of the two selections, the forecast one holding the rows
    whose segment reads forecast and the historical one all the others, a
    missing segment included; without a segment column both selections
    raise the KeyError, even on a table without rows. *)
Theorem market_traces_split_the_rows (market : frame) :
  (In "segment" (columns market) ->
   exists h f,
     historical market = Ok h
     /\ forecast market = Ok f
     /\ Permutation (h ++ f) (rows market)
     /\ (forall row, In row f
                     <-> In row (rows market)
                         /\ cell_under "segment" market row = Text "forecast")
     /\ (forall row, In row h
                     <-> In row (rows market)
                         /\ cell_under "segment" market row <> Text "forecast"))
  /\ (~ In "segment" (columns market) ->
      historical market = Error (KeyError "segment")
      /\ forecast market = Error (KeyError "segment")).
Proof.
  split.
  - intros H. destruct (traces market H) as [Eh Ef].
    eexists; eexists. split; [exact Eh |]. split; [exact Ef |].
    split; [apply filter_partition |]. split.
    + intros row. rewrite filter_In, is_forecast_true. tauto.
    + intros row. rewrite filter_In, negb_true_iff.
      rewrite <- is_forecast_true.
      destruct (is_forecast (cell_under "segment" market row));
        split; intros [I K]; split; auto; try discriminate.
      exfalso. apply K. reflexivity.
  - intros H. unfold historical, forecast.
    rewrite (column_absent "segment" market H). split; reflexivity.
Qed.

Lemma market_traces_split_the_rows_witness :
  historical sample_no_segment = Error (KeyError "segment")
  /\ exists h f,
       historical (load_market_data sample_sportswear sample_jersey) = Ok h
       /\ forecast (load_market_data sample_sportswear sample_jersey) = Ok f
       /\ Permutation (h ++ f)
            (rows (load_market_data sample_sportswear sample_jersey)).
Proof.
  split.
  - apply (proj2 (market_traces_split_the_rows sample_no_segment)).
    simpl. intuition discriminate.
  - destruct (proj1 (market_traces_split_the_rows
                       (load_market_data sample_sportswear sample_jersey)))
      as (h & f & Eh & Ef & P & _).
    + simpl. auto.
    + exists h, f. auto.
Defined.




End DashboardFacts.
